(** * Digital twin core of the Indian EHV 400/220 kV substation server

    A shallow embedding of [IndianEHVSubstationDigitalTwin]
    (src/api/digital_twin_server.py): the asset registry, the per-tick
    update of asset statuses and substation metrics, the broadcast to the
    WebSocket clients, operator control and the fault ledger.

    Python floats are idealised as exact rationals ([Q]); the draws of
    [np.random], the clock and the replies of the OpenDSS engine are inputs
    of the functions that consume them.  The [assets] dict is a [gmap] keyed
    by asset id; every method that mutates [self] returns the new twin. *)

From Stdlib Require Import QArith Qminmax Qabs Lqa.
From stdpp Require Import gmap strings list fin_maps pretty.

Open Scope Q_scope.
Open Scope string_scope.

(** ** Numeric helpers *)

(** [x > y] on floats, as a boolean. *)
Definition Qgtb (x y : Q) : bool := negb (Qle_bool x y).

(** [d.get(key, default)] for a key that may be absent. *)
Definition get {A} (field : option A) (default : A) : A :=
  match field with Some v => v | None => default end.

(** [x in s] for a one-character needle [x]. *)
Definition contains (needle s : string) : bool :=
  match String.index 0 needle s with Some _ => true | None => false end.

(** ** Data model *)

Record AssetStatus := mkAsset {
  asset_id : string;
  asset_type : string;
  status : string;
  voltage : Q;
  current : Q;
  power : Q;
  temperature : Q;
  timestamp : string;
  health_score : Q
}.

Record SubstationMetrics := mkMetrics {
  total_power : Q;
  total_load : Q;
  efficiency : Q;
  voltage_stability : Q;
  frequency : Q;
  metrics_timestamp : string;
  grid_connection : bool;
  fault_count : Z
}.

Record FaultAnalysis := mkFault {
  fault_type : string;
  fault_location : string;
  fault_impedance : Q;
  fault_current : Q;
  protection_operation : bool;
  clearance_time : Q;
  fault_timestamp : string
}.

(** The dict returned by [LoadFlowAnalysis.solve]; a key may be missing. *)
Record OpenDSSResults := mkResults {
  voltage_400kv : option Q;
  voltage_220kv : option Q;
  total_power_kw : option Q;
  total_power_kvar : option Q;
  total_losses_mw : option Q;
  max_voltage_pu : option Q;
  min_voltage_pu : option Q;
  converged : option bool
}.

(** WebSocket connections are distinct objects; a handle names one. *)
Definition client := nat.

Record Twin := mkTwin {
  is_running : bool;
  websocket_clients : list client;
  assets : gmap string AssetStatus;
  metrics : SubstationMetrics;
  faults : list FaultAnalysis;
  opendss_results : OpenDSSResults
}.

Inductive exception := ValueError (message : string).

(** *** Attribute assignment *)

Definition set_status (a : AssetStatus) (s : string) : AssetStatus :=
  mkAsset (asset_id a) (asset_type a) s (voltage a) (current a) (power a)
          (temperature a) (timestamp a) (health_score a).
Definition set_voltage (a : AssetStatus) (v : Q) : AssetStatus :=
  mkAsset (asset_id a) (asset_type a) (status a) v (current a) (power a)
          (temperature a) (timestamp a) (health_score a).
Definition set_current (a : AssetStatus) (v : Q) : AssetStatus :=
  mkAsset (asset_id a) (asset_type a) (status a) (voltage a) v (power a)
          (temperature a) (timestamp a) (health_score a).
Definition set_power (a : AssetStatus) (v : Q) : AssetStatus :=
  mkAsset (asset_id a) (asset_type a) (status a) (voltage a) (current a) v
          (temperature a) (timestamp a) (health_score a).
Definition set_temperature (a : AssetStatus) (v : Q) : AssetStatus :=
  mkAsset (asset_id a) (asset_type a) (status a) (voltage a) (current a)
          (power a) v (timestamp a) (health_score a).
Definition set_timestamp (a : AssetStatus) (t : string) : AssetStatus :=
  mkAsset (asset_id a) (asset_type a) (status a) (voltage a) (current a)
          (power a) (temperature a) t (health_score a).
Definition set_health_score (a : AssetStatus) (h : Q) : AssetStatus :=
  mkAsset (asset_id a) (asset_type a) (status a) (voltage a) (current a)
          (power a) (temperature a) (timestamp a) h.

Definition set_assets (tw : Twin) (m : gmap string AssetStatus) : Twin :=
  mkTwin (is_running tw) (websocket_clients tw) m (metrics tw) (faults tw)
         (opendss_results tw).
Definition set_metrics (tw : Twin) (m : SubstationMetrics) : Twin :=
  mkTwin (is_running tw) (websocket_clients tw) (assets tw) m (faults tw)
         (opendss_results tw).
Definition set_faults (tw : Twin) (l : list FaultAnalysis) : Twin :=
  mkTwin (is_running tw) (websocket_clients tw) (assets tw) (metrics tw) l
         (opendss_results tw).
Definition set_websocket_clients (tw : Twin) (l : list client) : Twin :=
  mkTwin (is_running tw) l (assets tw) (metrics tw) (faults tw)
         (opendss_results tw).
Definition set_opendss_results (tw : Twin) (r : OpenDSSResults) : Twin :=
  mkTwin (is_running tw) (websocket_clients tw) (assets tw) (metrics tw)
         (faults tw) r.

(** [if key in self.assets: asset = self.assets[key]; <mutate asset>] *)
Definition update_in (key : string) (f : AssetStatus → AssetStatus)
    (m : gmap string AssetStatus) : gmap string AssetStatus :=
  match m !! key with
  | Some asset => <[key := f asset]> m
  | None => m
  end.

(** [for key in keys: if key in self.assets: ...] *)
Definition update_each (keys : list string)
    (f : string → AssetStatus → AssetStatus)
    (m : gmap string AssetStatus) : gmap string AssetStatus :=
  foldl (fun acc key => update_in key (f key) acc) m keys.

(** ** control_asset *)

Definition control_asset (tw : Twin) (id action : string)
    : exception + (Twin * (string * string)) :=
  match assets tw !! id with
  | None => inl (ValueError ("Asset " ++ id ++ " not found"))
  | Some asset =>
    let success (a : AssetStatus) :=
      inr (set_assets tw (<[id := a]> (assets tw)),
           ("success", "Asset " ++ id ++ " " ++ action ++ " completed")) in
    if (action =? "open") && (asset_type asset =? "CircuitBreaker") then
      success (set_status asset "open")
    else if (action =? "close") && (asset_type asset =? "CircuitBreaker") then
      success (set_status asset "closed")
    else if action =? "trip" then
      let asset := set_status asset "fault" in
      success (set_health_score asset (Qmax 0 (health_score asset - 10)))
    else if action =? "reset" then
      let asset := set_status asset "healthy" in
      success (set_health_score asset (Qmin 100 (health_score asset + 20)))
    else
      inl (ValueError ("Invalid action " ++ action ++ " for asset type "
                       ++ asset_type asset))
  end.

(** ** _setup_assets *)

Definition cb_ids : list string :=
  (fun i : nat => "CB_" ++ pretty i) <$> seq 1 5.
Definition power_transformer_ids : list string :=
  ["TX1_400_220"; "TX2_400_220"].
Definition distribution_transformer_ids : list string :=
  ["DTX1_220_33"; "DTX2_220_33"].
Definition load_ids : list string := ["IndustrialLoad1"; "IndustrialLoad2"].

(** [now] stands for the clock readings [datetime.now().isoformat()]. *)
Definition _setup_assets (results : OpenDSSResults) (now : string)
    : gmap string AssetStatus :=
  let voltage_400kv := get (voltage_400kv results) 400 in
  let voltage_220kv := get (voltage_220kv results) 220 in
  let total_power_kw := Qabs (get (total_power_kw results) 0) in
  let converged := get (converged results) true in
  let solved := if converged then "healthy" else "warning" in
  let m : gmap string AssetStatus := ∅ in
  let m := <["Grid400kV" :=
    mkAsset "Grid400kV" "GridConnection" solved voltage_400kv
      (if Qgtb voltage_400kv 0
       then total_power_kw / (voltage_400kv * 1.732) else 0)
      (total_power_kw / 1000) 25 now 100]> m in
  let tx_power_kw := total_power_kw / 2 in
  let tx_current :=
    if Qgtb voltage_400kv 0
    then tx_power_kw / (voltage_400kv * 1.732) else 0 in
  let load_factor := tx_power_kw / 315000 in
  let tx_temp := 45 + load_factor * 25 in
  let m := foldl (fun acc id =>
    <[id := mkAsset id "PowerTransformer" solved voltage_400kv tx_current
              tx_power_kw tx_temp now 95]> acc) m power_transformer_ids in
  let dtx_power_kw := total_power_kw / 4 in
  let dtx_current :=
    if Qgtb voltage_220kv 0
    then dtx_power_kw / (voltage_220kv * 1.732) else 0 in
  let dtx_load_factor := dtx_power_kw / 50000 in
  let dtx_temp := 50 + dtx_load_factor * 20 in
  let m := foldl (fun acc id =>
    <[id := mkAsset id "DistributionTransformer" solved voltage_220kv
              dtx_current dtx_power_kw dtx_temp now 90]> acc)
    m distribution_transformer_ids in
  let m := foldl (fun acc id =>
    <[id := mkAsset id "CircuitBreaker" "healthy" 0 0 0 30 now 98]> acc)
    m cb_ids in
  let load1_power_kw := 15000 in
  let load2_power_kw := 12000 in
  let load_voltage_kv := 33 in
  let m := <["IndustrialLoad1" :=
    mkAsset "IndustrialLoad1" "IndustrialLoad" "healthy" load_voltage_kv
      (load1_power_kw / (load_voltage_kv * 1.732)) load1_power_kw
      (35 + load1_power_kw / 20000 * 10) now 85]> m in
  <["IndustrialLoad2" :=
    mkAsset "IndustrialLoad2" "IndustrialLoad" "healthy" load_voltage_kv
      (load2_power_kw / (load_voltage_kv * 1.732)) load2_power_kw
      (35 + load2_power_kw / 20000 * 10) now 85]> m.

(** ** _update_asset_statuses *)

(** What one tick reads from outside the twin.  [None] in a reply stands
    for an exception raised by the engine while the element is queried
    ([SetActiveElement], [Powers], [VoltagesMagAng]). *)
Record TickEnv := mkEnv {
  solve : option OpenDSSResults;       (* [None]: [load_flow.solve()] raises *)
  dss_engine : bool;                   (* [self.load_flow.dss] is truthy *)
  transformer_powers : string → option (list Q);
  load_powers_voltages : string → option (list Q * list Q);
  normal : string → Q;                 (* the draw of np.random.normal, per asset *)
  frequency_noise : Q;
  current_time : string;               (* the clock read by [_update_asset_statuses] *)
  metrics_time : string;               (* the clock read by [_update_substation_metrics] *)
  broadcast_time : string;             (* the clock read by [_broadcast_updates] *)
  send_raises : client → bool          (* the [try] around the send attempt raises *)
}.

Definition update_grid (results : OpenDSSResults) (now : string)
    (asset : AssetStatus) : AssetStatus :=
  let asset := set_voltage asset (get (voltage_400kv results) 400) in
  let asset :=
    set_power asset (Qabs (get (total_power_kw results) 0) / 1000) in
  let asset := set_current asset
    (if Qgtb (voltage asset) 0
     then power asset * 1000 / (voltage asset * 1.732) else 0) in
  let asset := set_temperature asset 25 in
  let asset := set_status asset
    (if get (converged results) false then "healthy" else "warning") in
  set_timestamp asset now.

(** The electrical part shared by both transformer loops: the measured
    primary power when the engine answers with at least two numbers, the
    estimate [total / divisor] otherwise. *)
Definition transformer_electrical (reply : option (list Q))
    (total_kw : Q) (divisor : Q) (bus_voltage : Q)
    (asset : AssetStatus) : AssetStatus :=
  let asset :=
    match reply with
    | Some powers =>
      if (2 <=? length powers)%nat
      then set_power asset (Qabs (nth 0 powers 0))
      else set_power asset (Qabs total_kw / divisor)
    | None => set_power asset (Qabs total_kw / divisor)
    end in
  let asset := set_voltage asset bus_voltage in
  set_current asset
    (if Qgtb (voltage asset) 0
     then power asset / (voltage asset * 1.732) else 0).

Definition update_power_transformer (env : TickEnv)
    (results : OpenDSSResults) (transformer_id : string)
    (asset : AssetStatus) : AssetStatus :=
  let asset := transformer_electrical
    (transformer_powers env ("Transformer." ++ transformer_id))
    (get (total_power_kw results) 0) 2000
    (get (voltage_400kv results) 400) asset in
  let base_temp := 45 in
  let load_mva := power asset / 1000 in
  let load_factor := Qmin (load_mva / 315) 1 in
  let asset := set_temperature asset
    (base_temp + load_factor * 35 + normal env transformer_id) in
  let asset :=
    if Qgtb (temperature asset) 85 then
      set_status (set_health_score asset (Qmax 0 (health_score asset - 0.5)))
                 "fault"
    else if Qgtb (temperature asset) 70 then
      set_status (set_health_score asset (Qmax 60 (health_score asset - 0.1)))
                 "warning"
    else
      set_status (set_health_score asset (Qmin 100 (health_score asset + 0.05)))
                 "healthy" in
  set_timestamp asset (current_time env).

Definition update_distribution_transformer (env : TickEnv)
    (results : OpenDSSResults) (transformer_id : string)
    (asset : AssetStatus) : AssetStatus :=
  let asset := transformer_electrical
    (transformer_powers env ("Transformer." ++ transformer_id))
    (get (total_power_kw results) 0) 4000
    (get (voltage_220kv results) 220) asset in
  let base_temp := 50 in
  let load_mva := power asset / 1000 in
  let load_factor := Qmin (load_mva / 50) 1 in
  let asset := set_temperature asset
    (base_temp + load_factor * 30 + normal env transformer_id) in
  let asset :=
    if Qgtb (temperature asset) 90 then
      set_status (set_health_score asset (Qmax 0 (health_score asset - 0.5)))
                 "fault"
    else if Qgtb (temperature asset) 75 then
      set_status (set_health_score asset (Qmax 60 (health_score asset - 0.1)))
                 "warning"
    else
      set_status (set_health_score asset (Qmin 100 (health_score asset + 0.05)))
                 "healthy" in
  set_timestamp asset (current_time env).

Definition update_circuit_breaker (env : TickEnv) (cb_id : string)
    (asset : AssetStatus) : AssetStatus :=
  let asset := set_temperature asset (30 + normal env cb_id) in
  let asset :=
    if status asset =? "fault" then
      set_health_score asset (Qmax 0 (health_score asset - 1))
    else
      set_status (set_health_score asset (Qmin 100 (health_score asset + 0.05)))
                 "healthy" in
  set_timestamp asset (current_time env).

Definition update_industrial_load (env : TickEnv) (load_id : string)
    (asset : AssetStatus) : AssetStatus :=
  let fallback_power := if contains "1" load_id then 15000 else 12000 in
  let asset :=
    match load_powers_voltages env ("Load." ++ load_id) with
    | Some (powers, voltages) =>
      let asset :=
        if (2 <=? length powers)%nat then
          let asset := set_power asset (Qabs (nth 0 powers 0)) in
          set_current asset
            (if negb (Qeq_bool (nth 0 powers 0) 0)
             then Qabs (nth 0 powers 0) / (33 * 1.732) else 0)
        else
          let asset := set_power asset fallback_power in
          set_current asset (fallback_power / (33 * 1.732)) in
      if (1 <=? length voltages)%nat
      then set_voltage asset (nth 0 voltages 0 / 1000)
      else set_voltage asset 33
    | None =>
      let asset := set_power asset fallback_power in
      let asset := set_voltage asset 33 in
      set_current asset (fallback_power / (33 * 1.732))
    end in
  let base_temp := 35 in
  let power_factor := power asset / 20000 in
  let asset := set_temperature asset
    (base_temp + power_factor * 15 + normal env load_id) in
  let asset :=
    if Qgtb (power asset) 18000 then
      set_health_score (set_status asset "warning")
                       (Qmax 70 (health_score asset - 0.1))
    else
      set_health_score (set_status asset "healthy")
                       (Qmin 100 (health_score asset + 0.05)) in
  set_timestamp asset (current_time env).

Definition _update_asset_statuses (env : TickEnv) (tw : Twin) : Twin :=
  if negb (dss_engine env) then tw
  else
    let results := opendss_results tw in
    let m := assets tw in
    let m := update_in "Grid400kV" (update_grid results (current_time env)) m in
    let m := update_each power_transformer_ids
               (update_power_transformer env results) m in
    let m := update_each distribution_transformer_ids
               (update_distribution_transformer env results) m in
    let m := update_each cb_ids (update_circuit_breaker env) m in
    let m := update_each load_ids (update_industrial_load env) m in
    set_assets tw m.

(** ** _update_substation_metrics *)

Definition _update_substation_metrics (env : TickEnv) (tw : Twin) : Twin :=
  let results := opendss_results tw in
  let total_power_kw := Qabs (get (total_power_kw results) 0) in
  let total_losses_mw := get (total_losses_mw results) 0 in
  let total_power_mw := total_power_kw / 1000 in
  let input_power_mw := total_power_mw + total_losses_mw in
  let efficiency :=
    if Qgtb input_power_mw 0
    then total_power_mw / input_power_mw * 100 else 0 in
  let max_voltage_pu := get (max_voltage_pu results) 1 in
  let min_voltage_pu := get (min_voltage_pu results) 1 in
  let voltage_deviation := (max_voltage_pu - min_voltage_pu) * 100 in
  let voltage_stability := Qmax 0 (100 - voltage_deviation) in
  let grid_connection :=
    get (converged results) false &&
    forallb (fun asset => negb (status asset =? "fault"))
      (List.filter (fun asset => asset_type asset =? "GridConnection")
                   (snd <$> map_to_list (assets tw))) in
  set_metrics tw
    (mkMetrics total_power_mw total_power_mw efficiency voltage_stability
               (50 + frequency_noise env) (metrics_time env)
               grid_connection (fault_count (metrics tw))).

(** ** _run_ai_analysis

    The analysis reads the twin and only writes to the log; whatever it
    raises is caught inside the method. *)
Definition _run_ai_analysis (tw : Twin) : Twin := tw.

(** ** _broadcast_updates *)

Record UpdateData := mkUpdate {
  update_type : string;
  update_assets : gmap string AssetStatus;
  update_metrics : SubstationMetrics;
  update_timestamp : string
}.

(** The first loop: one send attempt per client, in list order.  Returns
    the messages handed over and the [disconnected] list. *)
Fixpoint send_to_all (raises : client → bool) (data : UpdateData)
    (clients : list client) : list (client * UpdateData) * list client :=
  match clients with
  | [] => ([], [])
  | c :: rest =>
    let '(sent, disconnected) := send_to_all raises data rest in
    if raises c then (sent, c :: disconnected)
    else ((c, data) :: sent, disconnected)
  end.

(** [l.remove(x)]: drops the first occurrence of [x]; [None] stands for the
    [ValueError] raised when there is none. *)
Fixpoint list_remove (x : client) (l : list client) : option (list client) :=
  match l with
  | [] => None
  | y :: l => if (x =? y)%nat then Some l else cons y <$> list_remove x l
  end.

(** The second loop: [self.websocket_clients.remove(client)] for each
    disconnected client; when [remove] raises, the list keeps what was
    removed until then. *)
Fixpoint remove_each (disconnected clients : list client)
    : list client * option exception :=
  match disconnected with
  | [] => (clients, None)
  | c :: rest =>
    match list_remove c clients with
    | Some clients' => remove_each rest clients'
    | None => (clients, Some (ValueError "list.remove(x): x not in list"))
    end
  end.

Definition _broadcast_updates (env : TickEnv) (tw : Twin)
    : Twin * list (client * UpdateData) * option exception :=
  match websocket_clients tw with
  | [] => (tw, [], None)
  | _ :: _ =>
    let update_data :=
      mkUpdate "update" (assets tw) (metrics tw) (broadcast_time env) in
    let '(sent, disconnected) :=
      send_to_all (send_raises env) update_data (websocket_clients tw) in
    let '(clients, raised) := remove_each disconnected (websocket_clients tw) in
    (set_websocket_clients tw clients, sent, raised)
  end.

(** ** run_fault_analysis and get_fault_history *)

(** The three [np.random.uniform] draws and the clock reading. *)
Record FaultDraws := mkDraws {
  draw_impedance : Q;
  draw_current : Q;
  draw_clearance : Q;
  draw_time : string
}.

(** [dataclasses.asdict] keeps every field and its value. *)
Definition asdict {A} (x : A) : A := x.

Definition run_fault_analysis (tw : Twin) (draws : FaultDraws)
    (fault_type fault_location : string) : Twin * FaultAnalysis :=
  let fault :=
    mkFault fault_type fault_location (draw_impedance draws)
            (draw_current draws) true (draw_clearance draws)
            (draw_time draws) in
  let tw := set_faults tw (faults tw ++ [fault]) in
  let m := metrics tw in
  let tw := set_metrics tw
    (mkMetrics (total_power m) (total_load m) (efficiency m)
               (voltage_stability m) (frequency m) (metrics_timestamp m)
               (grid_connection m) (fault_count m + 1)) in
  (tw, asdict fault).

Definition get_fault_history (tw : Twin) : list FaultAnalysis :=
  asdict <$> faults tw.

(** ** _simulation_loop *)

(** The loop runs in the thread [start_simulation] creates, and no event
    loop runs in that thread: there [asyncio.create_task] raises
    [RuntimeError] whatever the client, so every send attempt of
    [_broadcast_updates] raises inside its [try]. *)
Definition in_loop_thread (env : TickEnv) : TickEnv :=
  mkEnv (solve env) (dss_engine env) (transformer_powers env)
        (load_powers_voltages env) (normal env) (frequency_noise env)
        (current_time env) (metrics_time env) (broadcast_time env)
        (fun _ => true).

(** The body of the [while]: any exception leaves the [try] at the point
    where it is raised and is logged by the handler. *)
Definition simulation_tick (env : TickEnv) (tw : Twin)
    : Twin * list (client * UpdateData) :=
  match solve env with
  | None => (tw, [])
  | Some results =>
    let tw := set_opendss_results tw results in
    let tw := _update_asset_statuses env tw in
    let tw := _update_substation_metrics env tw in
    let tw := _run_ai_analysis tw in
    let '(tw, sent, _) := _broadcast_updates (in_loop_thread env) tw in
    (tw, sent)
  end.

(** One element of [schedule] per second of wall-clock time: what the
    iteration reads, and whether [stop_simulation] clears [is_running]
    before the next test of the loop condition. *)
Fixpoint _simulation_loop (schedule : list (TickEnv * bool)) (tw : Twin)
    : Twin * list (list (client * UpdateData)) :=
  match schedule with
  | [] => (tw, [])
  | (env, stop) :: rest =>
    if is_running tw then
      let '(tw, sent) := simulation_tick env tw in
      let tw :=
        if stop
        then mkTwin false (websocket_clients tw) (assets tw) (metrics tw)
                    (faults tw) (opendss_results tw)
        else tw in
      let '(tw, trace) := _simulation_loop rest tw in
      (tw, sent :: trace)
    else (tw, [])
  end.

(** ** __init__ *)

(** The twin as the constructor leaves it: no client, no fault, the
    metrics at their initial values and the registry of [_setup_assets]
    built from the first solve. *)
Definition new_twin (results : OpenDSSResults) (now : string) : Twin :=
  mkTwin false [] (_setup_assets results now)
         (mkMetrics 0 0 0 0 50 "" true 0) [] results.

(** ** Vocabulary of the statements *)

(** The twin a caller of [control_asset] sees afterwards: a raised
    exception leaves it as it was. *)
Definition apply_control (tw : Twin) (id action : string) : Twin :=
  match control_asset tw id action with
  | inr (tw', _) => tw'
  | inl _ => tw
  end.

Definition health_in_range (a : AssetStatus) : Prop :=
  0 <= health_score a <= 100.

(** The action table: breakers accept open and close, every asset accepts
    trip and reset. *)
Definition accepts (type action : string) : Prop :=
  (action = "open" ∨ action = "close") ∧ type = "CircuitBreaker"
  ∨ action = "trip" ∨ action = "reset".

(** Status as a function of temperature and the two thresholds of a
    class. *)
Definition thermal_status (warning fault temperature : Q) : string :=
  if Qgtb temperature fault then "fault"
  else if Qgtb temperature warning then "warning"
  else "healthy".

(** What [_update_asset_statuses] does to the asset stored under [key]
    when the engine is available. *)
Definition tick_asset (env : TickEnv) (results : OpenDSSResults)
    (key : string) (asset : AssetStatus) : AssetStatus :=
  if decide (key = "Grid400kV") then
    update_grid results (current_time env) asset
  else if decide (key ∈ power_transformer_ids) then
    update_power_transformer env results key asset
  else if decide (key ∈ distribution_transformer_ids) then
    update_distribution_transformer env results key asset
  else if decide (key ∈ cb_ids) then
    update_circuit_breaker env key asset
  else if decide (key ∈ load_ids) then
    update_industrial_load env key asset
  else asset.

(** Every breaker of the registry is one of the five the tick visits. *)
Definition breakers_named (m : gmap string AssetStatus) : Prop :=
  map_Forall (fun id a => asset_type a = "CircuitBreaker" → id ∈ cb_ids) m.

(** A solve result with every key present, and an environment in which
    the engine answers nothing and no draw deviates. *)
Definition nominal_results : OpenDSSResults :=
  mkResults (Some 400) (Some 220) (Some 100000) (Some 20000) (Some 1)
            (Some 1.02) (Some 0.98) (Some true).

Definition quiet_env (engine : bool) (result : option OpenDSSResults)
    : TickEnv :=
  mkEnv result engine (fun _ => None) (fun _ => None) (fun _ => 0) 0
        "t1" "t2" "t3" (fun _ => false).

Definition twin0 : Twin := new_twin nominal_results "t0".

(** The twin after [start_simulation], with three clients connected,
    and an environment in which the send to client 2 raises. *)
Definition running_twin : Twin :=
  mkTwin true [1; 2; 3]%nat (assets twin0) (metrics twin0) (faults twin0)
         (opendss_results twin0).

Definition flaky_env : TickEnv :=
  mkEnv (Some nominal_results) true (fun _ => None) (fun _ => None)
        (fun _ => 0) 0 "t1" "t2" "t3" (fun c => (c =? 2)%nat).

(** An environment in which the engine reports 283.5 MW on the primary
    of TX1_400_220 (nine tenths of its 315 MVA rating) and no draw
    deviates. *)
Definition loaded_env : TickEnv :=
  mkEnv (Some nominal_results) true
        (fun element =>
           if element =? "Transformer.TX1_400_220"
           then Some [283500; 40000] else None)
        (fun _ => None) (fun _ => 0) 0 "t1" "t2" "t3" (fun _ => false).

(** The twin after the operator opened breaker CB_1. *)
Definition opened_twin : Twin := apply_control twin0 "CB_1" "open".

(** TX1_400_220 after five trips in a row. *)
Definition worn_twin : Twin :=
  Nat.iter 5 (fun tw => apply_control tw "TX1_400_220" "trip") twin0.

(** What [control_asset] can do to a registry entry. *)
Inductive control_effect (a : AssetStatus) : AssetStatus → Prop :=
  | effect_none : control_effect a a
  | effect_open : control_effect a (set_status a "open")
  | effect_close : control_effect a (set_status a "closed")
  | effect_trip :
      control_effect a (set_health_score (set_status a "fault")
                          (Qmax 0 (health_score a - 10)))
  | effect_reset :
      control_effect a (set_health_score (set_status a "healthy")
                          (Qmin 100 (health_score a + 20))).

(** The twins the server can be in: built by the constructor, then
    changed by ticks, control requests, fault analyses and WebSocket
    connections. *)
Inductive reachable : Twin → Prop :=
  | reach_init results now : reachable (new_twin results now)
  | reach_tick env tw : reachable tw → reachable (simulation_tick env tw).1
  | reach_control tw id action :
      reachable tw → reachable (apply_control tw id action)
  | reach_fault tw draws type location :
      reachable tw →
      reachable (run_fault_analysis tw draws type location).1
  | reach_connect tw c :
      reachable tw →
      reachable (set_websocket_clients tw (websocket_clients tw ++ [c])).

(** ** Read accessors *)

Definition get_asset_status (tw : Twin) (id : string)
    : exception + AssetStatus :=
  match assets tw !! id with
  | None => inl (ValueError ("Asset " ++ id ++ " not found"))
  | Some asset => inr (asdict asset)
  end.

Definition get_all_assets (tw : Twin) : gmap string AssetStatus :=
  asdict <$> assets tw.

Definition get_substation_metrics (tw : Twin) : SubstationMetrics :=
  asdict (metrics tw).

(** ** start_simulation and stop_simulation *)

Definition set_is_running (tw : Twin) (b : bool) : Twin :=
  mkTwin b (websocket_clients tw) (assets tw) (metrics tw) (faults tw)
         (opendss_results tw).

(** The boolean tells whether a thread running [_simulation_loop] was
    started. *)
Definition start_simulation (tw : Twin) : Twin * bool :=
  if negb (is_running tw) then (set_is_running tw true, true)
  else (tw, false).

(** The effect on the twin; the caller then joins the loop thread. *)
Definition stop_simulation (tw : Twin) : Twin := set_is_running tw false.

(** ** websocket_endpoint *)

(** After [accept]: the connection joins the client list. *)
Definition websocket_connect (tw : Twin) (c : client) : Twin :=
  set_websocket_clients tw (websocket_clients tw ++ [c]).

(** The handler of [WebSocketDisconnect]: [websocket_clients.remove]. *)
Definition websocket_disconnect (tw : Twin) (c : client)
    : exception + Twin :=
  match list_remove c (websocket_clients tw) with
  | Some clients => inr (set_websocket_clients tw clients)
  | None => inl (ValueError "list.remove(x): x not in list")
  end.

(** ** REST endpoints *)

Module API.

Inductive response (A : Type) :=
  | Ok (body : A)
  | HTTPException (status_code : nat) (detail : string).
Arguments Ok {A} body.
Arguments HTTPException {A} status_code detail.

Record AssetControlRequest := mkRequest {
  request_asset_id : string;
  request_action : string;
  request_parameters : list (string * string)
}.

(** [str(e)] *)
Definition str (e : exception) : string :=
  match e with ValueError message => message end.

Definition get_all_assets (tw : Twin) : response (gmap string AssetStatus) :=
  Ok (get_all_assets tw).

Definition get_asset (tw : Twin) (asset_id : string)
    : response AssetStatus :=
  match get_asset_status tw asset_id with
  | inr asset => Ok asset
  | inl e => HTTPException 404 (str e)
  end.

Definition get_metrics (tw : Twin) : response SubstationMetrics :=
  Ok (get_substation_metrics tw).

Definition control_asset (tw : Twin) (request : AssetControlRequest)
    : Twin * response (string * string) :=
  match control_asset tw (request_asset_id request)
                      (request_action request) with
  | inr (tw', result) => (tw', Ok result)
  | inl e => (tw, HTTPException 400 (str e))
  end.

Definition analyze_fault (tw : Twin) (draws : FaultDraws)
    (fault_type fault_location : string) : Twin * response FaultAnalysis :=
  let '(tw', result) :=
    run_fault_analysis tw draws fault_type fault_location in
  (tw', Ok result).

Definition get_fault_history (tw : Twin) : response (list FaultAnalysis) :=
  Ok (get_fault_history tw).

End API.

(** ** Shape of the registry *)

Definition all_ids : list string :=
  "Grid400kV" :: power_transformer_ids ++ distribution_transformer_ids
              ++ cb_ids ++ load_ids.

(** The class [_setup_assets] gives to an id. *)
Definition class_of (key : string) : string :=
  if decide (key = "Grid400kV") then "GridConnection"
  else if decide (key ∈ power_transformer_ids) then "PowerTransformer"
  else if decide (key ∈ distribution_transformer_ids)
       then "DistributionTransformer"
  else if decide (key ∈ cb_ids) then "CircuitBreaker"
  else "IndustrialLoad".

(** The registry holds the twelve assets of the manifest, each stored
    under its own id with the class of that id. *)
Definition registry_shape (m : gmap string AssetStatus) : Prop :=
  dom m = list_to_set all_ids
  ∧ map_Forall (fun key a => asset_id a = key ∧ asset_type a = class_of key) m.

(** Several updates in a row, one environment each. *)
Definition update_many (envs : list TickEnv) (tw : Twin) : Twin :=
  foldl (fun tw env => _update_asset_statuses env tw) tw envs.

(** One tick after the other, one environment each, with what each tick
    sent. *)
Fixpoint tick_each (envs : list TickEnv) (tw : Twin)
    : Twin * list (list (client * UpdateData)) :=
  match envs with
  | [] => (tw, [])
  | env :: rest =>
    let '(tw, sent) := simulation_tick env tw in
    let '(tw, trace) := tick_each rest tw in
    (tw, sent :: trace)
  end.

(** The same control action sent [n] times. *)
Definition repeat_control (n : nat) (id action : string) (tw : Twin) : Twin :=
  Nat.iter n (fun tw => apply_control tw id action) tw.

(** The counter of the metrics agrees with the ledger. *)
Definition ledger_consistent (tw : Twin) : Prop :=
  fault_count (metrics tw) = Z.of_nat (length (faults tw)).

(** No asset reports a negative power or current. *)
Definition flows_nonneg (m : gmap string AssetStatus) : Prop :=
  map_Forall (fun _ a => 0 <= power a ∧ 0 <= current a) m.

(** * Properties *)

(** ** Numeric and map lemmas *)

Lemma Qgtb_true x y : Qgtb x y = true ↔ y < x.
Proof.
  unfold Qgtb. rewrite negb_true_iff, <- not_true_iff_false, Qle_bool_iff.
  split; [apply Qnot_le_lt | apply Qlt_not_le].
Qed.

Lemma Qgtb_false x y : Qgtb x y = false ↔ x <= y.
Proof. unfold Qgtb. by rewrite negb_false_iff, Qle_bool_iff. Qed.

Lemma Qmax_in_range lo x : 0 <= lo <= 100 → x <= 100 → 0 <= Qmax lo x <= 100.
Proof.
  intros Hlo Hx. destruct (Q.max_spec lo x) as [[? E]|[? E]]; rewrite E; lra.
Qed.

Lemma Qmin_in_range x : 0 <= x → 0 <= Qmin 100 x <= 100.
Proof.
  intros Hx. destruct (Q.min_spec 100 x) as [[? E]|[? E]]; rewrite E; lra.
Qed.

Lemma cb_ids_eq : cb_ids = ["CB_1"; "CB_2"; "CB_3"; "CB_4"; "CB_5"].
Proof. reflexivity. Qed.

Lemma lookup_update_in key f (m : gmap string AssetStatus) k :
  update_in key f m !! k = if decide (key = k) then f <$> m !! k else m !! k.
Proof.
  unfold update_in. destruct (m !! key) as [a|] eqn:E.
  - rewrite lookup_insert. case_decide; subst; by rewrite ?E.
  - case_decide; subst; by rewrite ?E.
Qed.

Lemma lookup_update_each keys f (m : gmap string AssetStatus) k :
  NoDup keys →
  update_each keys f m !! k
  = if decide (k ∈ keys) then f k <$> m !! k else m !! k.
Proof.
  unfold update_each. revert m.
  induction keys as [|key keys IH]; intros m Hnd; cbn [foldl].
  - case_decide as Hin; [by apply elem_of_nil in Hin | done].
  - apply NoDup_cons in Hnd as [Hnotin Hnd]. rewrite IH by done.
    rewrite lookup_update_in.
    destruct (decide (key = k)) as [->|Hne].
    + rewrite (decide_False (P := k ∈ keys)) by done.
      rewrite decide_True by left. done.
    + destruct (decide (k ∈ keys)) as [Hin|Hout].
      * rewrite decide_True by (by right). done.
      * rewrite decide_False; [done|].
        intros [->|?]%elem_of_cons; done.
Qed.

(** Settles every [decide] of the goal whose proposition is closed. *)
Ltac closed_decide :=
  repeat match goal with
  | |- context [decide ?P] =>
    first
      [ rewrite (decide_True (P := P))
          by (apply (bool_decide_unpack _); vm_compute; exact I)
      | rewrite (decide_False (P := P))
          by (apply (bool_decide_unpack _); vm_compute; exact I) ]
  end.

(** Splits [k ∈ [a; b; ...]] into one goal per element. *)
Ltac split_elem H :=
  repeat (apply elem_of_cons in H as [->|H]); [..|by apply elem_of_nil in H].

Lemma ids_NoDup :
  NoDup power_transformer_ids ∧ NoDup distribution_transformer_ids
  ∧ NoDup cb_ids ∧ NoDup load_ids.
Proof. repeat split; apply (bool_decide_unpack _); vm_compute; exact I. Qed.

Lemma lookup_update_asset_statuses env tw k :
  dss_engine env = true →
  assets (_update_asset_statuses env tw) !! k
  = tick_asset env (opendss_results tw) k <$> assets tw !! k.
Proof.
  intros Hengine. unfold _update_asset_statuses. rewrite Hengine.
  cbn [negb assets set_assets].
  destruct ids_NoDup as (Hpt & Hdt & Hcb & Hld).
  rewrite !lookup_update_each, lookup_update_in by done.
  unfold tick_asset.
  destruct (decide (k = "Grid400kV")) as [->|Hgrid]; [by closed_decide|].
  rewrite (decide_False (P := "Grid400kV" = k)) by done.
  destruct (decide (k ∈ power_transformer_ids)) as [Hin|_].
  { unfold power_transformer_ids in Hin. split_elem Hin; by closed_decide. }
  destruct (decide (k ∈ distribution_transformer_ids)) as [Hin|_].
  { unfold distribution_transformer_ids in Hin.
    split_elem Hin; by closed_decide. }
  destruct (decide (k ∈ cb_ids)) as [Hin|_].
  { rewrite cb_ids_eq in Hin. split_elem Hin; by closed_decide. }
  destruct (decide (k ∈ load_ids)) as [Hin|_]; by destruct (assets tw !! k).
Qed.

Lemma lookup_update_asset_statuses_off env tw :
  dss_engine env = false → _update_asset_statuses env tw = tw.
Proof. intros Hengine. unfold _update_asset_statuses. by rewrite Hengine. Qed.

(** ** What each step leaves alone *)

Lemma transformer_electrical_frame reply total divisor bus a :
  let a' := transformer_electrical reply total divisor bus a in
  health_score a' = health_score a ∧ status a' = status a
  ∧ asset_type a' = asset_type a ∧ asset_id a' = asset_id a.
Proof.
  unfold transformer_electrical.
  destruct reply as [powers|]; [destruct (2 <=? length powers)%nat|]; done.
Qed.

Lemma broadcast_frame env tw :
  let tw' := (_broadcast_updates env tw).1.1 in
  assets tw' = assets tw ∧ metrics tw' = metrics tw ∧ faults tw' = faults tw
  ∧ opendss_results tw' = opendss_results tw ∧ is_running tw' = is_running tw.
Proof.
  unfold _broadcast_updates. destruct (websocket_clients tw); [done|].
  destruct (send_to_all _ _ _) as [sent disconnected].
  by destruct (remove_each _ _).
Qed.

Lemma simulation_tick_assets env tw :
  assets (simulation_tick env tw).1
  = match solve env with
    | None => assets tw
    | Some results =>
      assets (_update_asset_statuses env (set_opendss_results tw results))
    end.
Proof.
  unfold simulation_tick. destruct (solve env) as [results|]; [|done].
  pose proof (broadcast_frame (in_loop_thread env)
    (_run_ai_analysis (_update_substation_metrics env
      (_update_asset_statuses env (set_opendss_results tw results)))))
    as (Ha & _).
  destruct (_broadcast_updates _ _) as [[tw' sent] raised].
  cbn [fst] in *. by rewrite Ha.
Qed.

(** ** Health score bounds of the per-class updates *)

Lemma tick_asset_health env results k a :
  health_in_range a → health_in_range (tick_asset env results k a).
Proof.
  unfold health_in_range, tick_asset. intros Ha.
  repeat case_decide; [done| | | | |done].
  - unfold update_power_transformer. cbv zeta.
    set (e := transformer_electrical _ _ _ _ a).
    assert (health_score e = health_score a) as Hh
      by apply transformer_electrical_frame.
    clearbody e. repeat destruct (Qgtb _ _); cbn; rewrite Hh;
      (apply Qmax_in_range || apply Qmin_in_range); lra.
  - unfold update_distribution_transformer. cbv zeta.
    set (e := transformer_electrical _ _ _ _ a).
    assert (health_score e = health_score a) as Hh
      by apply transformer_electrical_frame.
    clearbody e. repeat destruct (Qgtb _ _); cbn; rewrite Hh;
      (apply Qmax_in_range || apply Qmin_in_range); lra.
  - unfold update_circuit_breaker. cbn.
    destruct (status a =? "fault"); cbn;
      (apply Qmax_in_range || apply Qmin_in_range); lra.
  - unfold update_industrial_load.
    destruct (load_powers_voltages env ("Load." ++ k)) as [[powers voltages]|];
      [destruct (2 <=? length powers)%nat, (1 <=? length voltages)%nat|];
      cbn; destruct (Qgtb _ _); cbn;
      (apply Qmax_in_range || apply Qmin_in_range); lra.
Qed.

Lemma update_asset_statuses_health env tw id a :
  assets tw !! id = Some a → health_in_range a →
  ∃ a', assets (_update_asset_statuses env tw) !! id = Some a'
        ∧ health_in_range a'.
Proof.
  intros Hid Ha. destruct (dss_engine env) eqn:Hengine.
  - rewrite lookup_update_asset_statuses, Hid by done.
    eexists; split; [done|]. by apply tick_asset_health.
  - rewrite lookup_update_asset_statuses_off by done. eauto.
Qed.

Ltac effect :=
  match goal with
  | |- control_effect ?a _ =>
    first [ exact (effect_none a) | exact (effect_open a)
          | exact (effect_close a) | exact (effect_trip a)
          | exact (effect_reset a) ]
  end.

Lemma control_asset_lookup tw id action k a :
  assets tw !! k = Some a →
  ∃ a', assets (apply_control tw id action) !! k = Some a'
        ∧ control_effect a a'.
Proof.
  intros Hk. unfold apply_control, control_asset.
  destruct (assets tw !! id) as [b|] eqn:Hid;
    [|eexists; split; [eassumption|effect]].
  destruct (decide (k = id)) as [->|Hne].
  - assert (b = a) as -> by congruence.
    repeat match goal with
    | |- context [if ?c then _ else _] => destruct c
    end; cbn [assets set_assets]; rewrite ?lookup_insert_eq;
      (eexists; split; [first [eassumption|reflexivity]|effect]).
  - repeat match goal with
    | |- context [if ?c then _ else _] => destruct c
    end; cbn [assets set_assets]; rewrite ?lookup_insert_ne by done;
      (eexists; split; [first [eassumption|reflexivity]|effect]).
Qed.

Lemma control_effect_health a a' :
  control_effect a a' → health_in_range a → health_in_range a'.
Proof.
  unfold health_in_range.
  destruct 1; cbn; intros Ha; try done;
    (apply Qmax_in_range || apply Qmin_in_range); lra.
Qed.

(** Neither the update nor a control action adds an asset. *)
Lemma update_asset_statuses_lookup_inv env tw id a' :
  assets (_update_asset_statuses env tw) !! id = Some a' →
  ∃ a, assets tw !! id = Some a.
Proof.
  destruct (dss_engine env) eqn:Hengine.
  - rewrite lookup_update_asset_statuses by done.
    destruct (assets tw !! id); [eauto|done].
  - rewrite lookup_update_asset_statuses_off by done. eauto.
Qed.

Lemma apply_control_lookup_inv tw id action k a' :
  assets (apply_control tw id action) !! k = Some a' →
  ∃ a, assets tw !! k = Some a.
Proof.
  destruct (assets tw !! k) as [a|] eqn:Hbefore; [eauto|].
  unfold apply_control, control_asset.
  destruct (assets tw !! id) as [b|] eqn:Hid; [|congruence].
  assert (k ≠ id) by congruence.
  repeat match goal with
  | |- context [if ?c then _ else _] => destruct c
  end; cbn [assets set_assets]; rewrite ?lookup_insert_ne by done;
    congruence.
Qed.

(** ** Health score invariant *)

(** C1. An asset whose health score lies in [0, 100] still has a health
    score in [0, 100] after the asset update of a tick (whatever its class
    and whatever the engine and the random draws return), after a whole
    tick, and after any control action, trip and reset included. *)
Theorem health_score_stays_in_range (tw : Twin) (id : string)
    (a : AssetStatus) :
  assets tw !! id = Some a → health_in_range a →
  (∀ env, ∃ a', assets (_update_asset_statuses env tw) !! id = Some a'
                ∧ health_in_range a')
  ∧ (∀ env, ∃ a', assets (simulation_tick env tw).1 !! id = Some a'
                  ∧ health_in_range a')
  ∧ (∀ k action, ∃ a', assets (apply_control tw k action) !! id = Some a'
                       ∧ health_in_range a').
Proof.
  intros Hid Ha. split; [|split].
  - intros env. by apply (update_asset_statuses_health env tw id a).
  - intros env. rewrite simulation_tick_assets.
    destruct (solve env) as [results|]; [|eauto].
    by apply (update_asset_statuses_health env _ id a).
  - intros k action.
    destruct (control_asset_lookup tw k action id a Hid) as (a' & Hk & Heff).
    exists a'. split; [done|]. by apply (control_effect_health a).
Qed.

Lemma health_score_stays_in_range_witness :
  (∀ env, ∃ a',
     assets (_update_asset_statuses env twin0) !! "TX1_400_220" = Some a'
     ∧ health_in_range a')
  ∧ (∀ env, ∃ a',
       assets (simulation_tick env twin0).1 !! "TX1_400_220" = Some a'
       ∧ health_in_range a')
  ∧ (∀ k action, ∃ a',
       assets (apply_control twin0 k action) !! "TX1_400_220" = Some a'
       ∧ health_in_range a').
Proof.
  eapply (health_score_stays_in_range twin0 "TX1_400_220").
  - vm_compute. reflexivity.
  - vm_compute. split; discriminate.
Defined.

(** ** Control actions *)

(** C7. On an existing asset, trip succeeds, sets the status to fault and
    lowers the health score by 10 without going below 0; from 95 the
    score becomes 85.  No other asset is touched. *)
Theorem trip_faults_and_penalises (tw : Twin) (id : string)
    (a : AssetStatus) :
  assets tw !! id = Some a →
  ∃ tw' message a',
    control_asset tw id "trip" = inr (tw', ("success", message))
    ∧ assets tw' !! id = Some a'
    ∧ status a' = "fault"
    ∧ health_score a' = Qmax 0 (health_score a - 10)
    ∧ 0 <= health_score a'
    ∧ (10 <= health_score a → health_score a' == health_score a - 10)
    ∧ (health_score a <= 10 → health_score a' == 0)
    ∧ (health_score a == 95 → health_score a' == 85)
    ∧ (∀ k, k ≠ id → assets tw' !! k = assets tw !! k).
Proof.
  intros Hid. unfold control_asset. rewrite Hid. cbn.
  do 3 eexists. split; [reflexivity|]. cbn [assets set_assets].
  rewrite lookup_insert_eq. split; [reflexivity|]. cbn.
  split; [done|]. split; [done|].
  destruct (Q.max_spec 0 (health_score a - 10)) as [[? E]|[? E]];
    repeat split; try (rewrite E; intros; lra).
  all: intros k Hk; by rewrite lookup_insert_ne.
Qed.

Lemma trip_faults_and_penalises_witness :
  ∃ tw' message a',
    control_asset twin0 "TX1_400_220" "trip" = inr (tw', ("success", message))
    ∧ assets tw' !! "TX1_400_220" = Some a'
    ∧ status a' = "fault"
    ∧ health_score a' = Qmax 0 (95 - 10)
    ∧ 0 <= health_score a'
    ∧ (10 <= 95 → health_score a' == 95 - 10)
    ∧ (95 <= 10 → health_score a' == 0)
    ∧ (95 == 95 → health_score a' == 85)
    ∧ (∀ k, k ≠ "TX1_400_220" → assets tw' !! k = assets twin0 !! k).
Proof.
  refine (trip_faults_and_penalises twin0 "TX1_400_220"
            (mkAsset "TX1_400_220" "PowerTransformer" "healthy" 400
               _ _ _ "t0" 95) _).
  vm_compute. reflexivity.
Defined.

Lemma reset_lookup tw id a :
  assets tw !! id = Some a →
  assets (apply_control tw id "reset") !! id
  = Some (set_health_score (set_status a "healthy")
            (Qmin 100 (health_score a + 20))).
Proof.
  intros Hid. unfold apply_control, control_asset. rewrite Hid. cbn.
  by rewrite lookup_insert_eq.
Qed.

(** C2, as the code has it.  Reset is not idempotent on the health score:
    on an existing asset with score h, one reset gives status healthy and
    score min(100, h + 20), two resets give status healthy and score
    min(100, h + 40); the two scores agree exactly when h ≥ 80. *)
Theorem reset_twice (tw : Twin) (id : string) (a : AssetStatus) :
  assets tw !! id = Some a →
  ∃ a1 a2,
    assets (apply_control tw id "reset") !! id = Some a1
    ∧ assets (apply_control (apply_control tw id "reset") id "reset") !! id
      = Some a2
    ∧ status a1 = "healthy" ∧ status a2 = "healthy"
    ∧ health_score a1 = Qmin 100 (health_score a + 20)
    ∧ health_score a2 == Qmin 100 (health_score a + 40)
    ∧ (health_score a2 == health_score a1 ↔ 80 <= health_score a).
Proof.
  intros Hid. pose proof (reset_lookup tw id a Hid) as H1.
  pose proof (reset_lookup _ id _ H1) as H2.
  do 2 eexists. split; [exact H1|]. split; [exact H2|]. cbn.
  repeat split; try done.
  - destruct (Q.min_spec 100 (health_score a + 20)) as [[? E]|[? E]];
      destruct (Q.min_spec 100 (Qmin 100 (health_score a + 20) + 20))
        as [[? E']|[? E']];
      destruct (Q.min_spec 100 (health_score a + 40)) as [[? E'']|[? E'']];
      rewrite E', E'' || rewrite E', ?E, E''; rewrite ?E in *; lra.
  - destruct (Q.min_spec 100 (health_score a + 20)) as [[? E]|[? E]];
      destruct (Q.min_spec 100 (Qmin 100 (health_score a + 20) + 20))
        as [[? E']|[? E']];
      rewrite E', ?E; rewrite ?E in *; lra.
  - destruct (Q.min_spec 100 (health_score a + 20)) as [[? E]|[? E]];
      destruct (Q.min_spec 100 (Qmin 100 (health_score a + 20) + 20))
        as [[? E']|[? E']];
      rewrite E', ?E; rewrite ?E in *; lra.
Qed.

Lemma reset_twice_witness :
  ∃ a1 a2,
    assets (apply_control worn_twin "TX1_400_220" "reset") !! "TX1_400_220"
    = Some a1
    ∧ assets (apply_control (apply_control worn_twin "TX1_400_220" "reset")
                "TX1_400_220" "reset") !! "TX1_400_220"
      = Some a2
    ∧ status a1 = "healthy" ∧ status a2 = "healthy"
    ∧ health_score a1 = Qmin 100 (45 + 20)
    ∧ health_score a2 == Qmin 100 (45 + 40)
    ∧ (health_score a2 == health_score a1 ↔ 80 <= 45).
Proof.
  refine (reset_twice worn_twin "TX1_400_220"
            (mkAsset "TX1_400_220" "PowerTransformer" "fault" 400
               _ _ _ "t0" 45) _).
  vm_compute. reflexivity.
Defined.

(** C2, as stated, fails: TX1_400_220 starts at 95 and five trips bring
    it to 45; one reset then gives 65 and a second reset gives 85. *)
Lemma reset_twice_differs_from_once :
  health_score <$> assets worn_twin !! "TX1_400_220" = Some 45
  ∧ health_score <$>
      assets (apply_control worn_twin "TX1_400_220" "reset") !! "TX1_400_220"
    = Some 65
  ∧ health_score <$>
      assets (apply_control (apply_control worn_twin "TX1_400_220" "reset")
                "TX1_400_220" "reset") !! "TX1_400_220"
    = Some 85
  ∧ Qeq_bool 85 65 = false.
Proof. vm_compute. by repeat split. Qed.

(** C8. [control_asset] raises exactly when the asset id is unknown or
    the action is not in the action table of the asset's class (open and
    close for circuit breakers, trip and reset for every asset).  Both
    errors are a [ValueError] raised to the caller, told apart by their
    message; every other call reports success. *)
Theorem control_asset_error_cases (tw : Twin) (id action : string) :
  ((∃ e, control_asset tw id action = inl e)
   ↔ assets tw !! id = None
     ∨ ∃ a, assets tw !! id = Some a ∧ ¬ accepts (asset_type a) action)
  ∧ match control_asset tw id action with
    | inl (ValueError message) =>
      assets tw !! id = None ∧ message = "Asset " ++ id ++ " not found"
      ∨ ∃ a, assets tw !! id = Some a ∧ ¬ accepts (asset_type a) action
             ∧ message = "Invalid action " ++ action ++ " for asset type "
                         ++ asset_type a
    | inr (_, (outcome, message)) =>
      outcome = "success"
      ∧ message = "Asset " ++ id ++ " " ++ action ++ " completed"
      ∧ ∃ a, assets tw !! id = Some a ∧ accepts (asset_type a) action
    end.
Proof.
  assert (match control_asset tw id action with
    | inl (ValueError message) =>
      assets tw !! id = None ∧ message = "Asset " ++ id ++ " not found"
      ∨ ∃ a, assets tw !! id = Some a ∧ ¬ accepts (asset_type a) action
             ∧ message = "Invalid action " ++ action ++ " for asset type "
                         ++ asset_type a
    | inr (_, (outcome, message)) =>
      outcome = "success"
      ∧ message = "Asset " ++ id ++ " " ++ action ++ " completed"
      ∧ ∃ a, assets tw !! id = Some a ∧ accepts (asset_type a) action
    end) as Hcases.
  { unfold control_asset, accepts.
    destruct (assets tw !! id) as [a|]; [|by left].
    destruct (String.eqb_spec action "open") as [->|Hopen];
      destruct (String.eqb_spec (asset_type a) "CircuitBreaker") as [Hcb|Hcb];
      cbn.
    all: repeat match goal with
      | |- context [String.eqb ?x ?s] =>
        destruct (String.eqb_spec x s) as [->|?]; cbn
      end.
    all: try (right; exists a; split; [done|]; split; [|done];
              intros [[[?|?] ?]|[?|?]]; done).
    all: eauto 10. }
  split; [|exact Hcases].
  destruct (control_asset tw id action) as [[message]|[tw' [outcome message]]].
  - split; [intros _|eauto].
    destruct Hcases as [[? _]|(a & ? & ? & _)]; eauto.
  - destruct Hcases as (_ & _ & a & Hid & Hacc).
    split; [intros [e ?]; done|]. intros [Hnone|(b & Hb & Hno)]; [congruence|].
    assert (b = a) as -> by congruence. done.
Qed.

Lemma control_asset_error_cases_witness :
  (∃ e, control_asset twin0 "TX1_400_220" "open" = inl e)
  ∧ (∃ e, control_asset twin0 "CB_9" "trip" = inl e).
Proof.
  split.
  - apply (proj1 (control_asset_error_cases twin0 "TX1_400_220" "open")).
    right. eexists. split; [vm_compute; reflexivity|].
    intros [[_ H]|[H|H]]; discriminate H.
  - apply (proj1 (control_asset_error_cases twin0 "CB_9" "trip")).
    left. vm_compute. reflexivity.
Defined.

(** ** Fault ledger *)

Lemma update_asset_statuses_frame env tw :
  let tw' := _update_asset_statuses env tw in
  metrics tw' = metrics tw ∧ faults tw' = faults tw
  ∧ websocket_clients tw' = websocket_clients tw
  ∧ opendss_results tw' = opendss_results tw
  ∧ is_running tw' = is_running tw.
Proof. unfold _update_asset_statuses. by destruct (dss_engine env). Qed.

Lemma simulation_tick_faults env tw :
  faults (simulation_tick env tw).1 = faults tw
  ∧ fault_count (metrics (simulation_tick env tw).1)
    = fault_count (metrics tw).
Proof.
  unfold simulation_tick. destruct (solve env) as [results|]; [|done].
  set (tw1 := _update_asset_statuses env (set_opendss_results tw results)).
  pose proof (update_asset_statuses_frame env
                (set_opendss_results tw results)) as (Hm & Hf & _).
  fold tw1 in Hm, Hf.
  pose proof (broadcast_frame (in_loop_thread env)
    (_run_ai_analysis (_update_substation_metrics env tw1))) as (_ & Hm' & Hf' & _).
  destruct (_broadcast_updates _ _) as [[tw' sent] raised].
  cbn [fst] in *. rewrite Hf', Hm'. cbn. by rewrite Hf, Hm.
Qed.

Lemma apply_control_frame tw id action :
  let tw' := apply_control tw id action in
  metrics tw' = metrics tw ∧ faults tw' = faults tw
  ∧ websocket_clients tw' = websocket_clients tw
  ∧ opendss_results tw' = opendss_results tw
  ∧ is_running tw' = is_running tw.
Proof.
  unfold apply_control, control_asset.
  destruct (assets tw !! id) as [a|]; [|done].
  repeat match goal with
  | |- context [if ?c then _ else _] => destruct c
  end; done.
Qed.

(** C9. [run_fault_analysis] appends exactly one record, the one it
    returns, at the end of the ledger and adds 1 to [fault_count]; the
    records already there keep their position and content.  Neither a tick
    nor a control action touches the ledger, and [get_fault_history] lists
    the records in the order they were appended. *)
Theorem run_fault_analysis_appends (tw : Twin) (draws : FaultDraws)
    (type location : string) :
  let tw' := (run_fault_analysis tw draws type location).1 in
  let fault := (run_fault_analysis tw draws type location).2 in
  faults tw' = (faults tw ++ [fault])%list
  ∧ length (faults tw') = S (length (faults tw))
  ∧ (∀ i record, faults tw !! i = Some record → faults tw' !! i = Some record)
  ∧ fault_count (metrics tw') = (fault_count (metrics tw) + 1)%Z
  ∧ fault_type fault = type ∧ fault_location fault = location
  ∧ get_fault_history tw = faults tw
  ∧ get_fault_history tw' = (get_fault_history tw ++ [fault])%list
  ∧ (∀ env, faults (simulation_tick env tw).1 = faults tw
            ∧ fault_count (metrics (simulation_tick env tw).1)
              = fault_count (metrics tw))
  ∧ (∀ id action, faults (apply_control tw id action) = faults tw
                  ∧ fault_count (metrics (apply_control tw id action))
                    = fault_count (metrics tw)).
Proof.
  assert (∀ l : list FaultAnalysis, asdict <$> l = l) as Hasdict
    by (intros l; apply list_fmap_id).
  cbn. unfold get_fault_history. rewrite !Hasdict.
  repeat split; try done.
  - rewrite length_app. cbn. lia.
  - intros i record Hi. by apply lookup_app_l_Some.
  - apply simulation_tick_faults.
  - apply simulation_tick_faults.
  - apply apply_control_frame.
  - by destruct (apply_control_frame tw id action) as (-> & _).
Qed.

Lemma run_fault_analysis_appends_witness :
  fault_count
    (metrics (run_fault_analysis twin0 (mkDraws 0.5 5000 0.2 "t2")
                "three_phase" "Bus220").1) = 1%Z
  ∧ get_fault_history
      (run_fault_analysis twin0 (mkDraws 0.5 5000 0.2 "t2")
         "three_phase" "Bus220").1
    = [mkFault "three_phase" "Bus220" 0.5 5000 true 0.2 "t2"].
Proof.
  pose proof (run_fault_analysis_appends twin0 (mkDraws 0.5 5000 0.2 "t2")
                "three_phase" "Bus220")
    as (_ & _ & _ & Hcount & _ & _ & _ & Hhistory & _).
  split; [exact Hcount|exact Hhistory].
Defined.

(** ** Grid connection flag *)

(** C5. After [_update_substation_metrics] the flag [grid_connection] is
    true exactly when the solve result has converged = true and no asset
    of type GridConnection has status fault.  A result that did not
    converge, or that lacks the key, gives false whatever the assets
    report. *)
Theorem grid_connection_iff (env : TickEnv) (tw : Twin) :
  (grid_connection (metrics (_update_substation_metrics env tw)) = true
   ↔ converged (opendss_results tw) = Some true
     ∧ ∀ id a, assets tw !! id = Some a →
               asset_type a = "GridConnection" → status a ≠ "fault")
  ∧ (converged (opendss_results tw) ≠ Some true →
     grid_connection (metrics (_update_substation_metrics env tw)) = false).
Proof.
  assert (grid_connection (metrics (_update_substation_metrics env tw)) = true
   ↔ converged (opendss_results tw) = Some true
     ∧ ∀ id a, assets tw !! id = Some a →
               asset_type a = "GridConnection" → status a ≠ "fault") as Hiff.
  { cbn. rewrite andb_true_iff, forallb_forall. split.
    - intros [Hconv Hall]. split.
      + by destruct (converged (opendss_results tw)) as [[]|].
      + intros id a Hid Htype Hfault.
        specialize (Hall a). rewrite Hfault in Hall. cbn in Hall.
        assert (false = true); [|done]. apply Hall.
        apply filter_In. split; [|by rewrite Htype].
        apply list_elem_of_In, list_elem_of_fmap. exists (id, a).
        split; [done|]. by apply elem_of_map_to_list.
    - intros [Hconv Hall]. rewrite Hconv. split; [done|].
      intros a [Hin Htype]%filter_In.
      apply list_elem_of_In, list_elem_of_fmap in Hin as ([id b] & -> & Hin).
      apply elem_of_map_to_list in Hin. cbn in *.
      apply negb_true_iff, String.eqb_neq.
      apply (Hall id b Hin). by apply String.eqb_eq. }
  split; [exact Hiff|].
  intros Hconv. apply not_true_is_false. intros Htrue.
  apply Hiff in Htrue as [? _]. done.
Qed.

Lemma grid_connection_iff_witness :
  grid_connection
    (metrics (_update_substation_metrics (quiet_env true None)
       (set_opendss_results twin0
          (mkResults (Some 400) (Some 220) (Some 100000) None None None None
                     (Some false))))) = false.
Proof.
  apply (proj2 (grid_connection_iff (quiet_env true None)
    (set_opendss_results twin0
       (mkResults (Some 400) (Some 220) (Some 100000) None None None None
                  (Some false))))).
  vm_compute. discriminate.
Defined.

(** ** Tick resilience *)



(** ** Broadcast *)

Lemma list_remove_middle c (before after : list client) :
  Forall (fun c' => c' ≠ c) before →
  list_remove c (before ++ c :: after)%list = Some (before ++ after)%list.
Proof.
  induction 1 as [|c' before Hne _ IH]; cbn.
  - by rewrite Nat.eqb_refl.
  - destruct (Nat.eqb_spec c c') as [->|_]; [done|]. by rewrite IH.
Qed.

Lemma send_to_all_spec raises data clients :
  send_to_all raises data clients
  = ((fun c => (c, data)) <$> List.filter (fun c => negb (raises c)) clients,
     List.filter raises clients).
Proof.
  induction clients as [|c clients IH]; [done|].
  cbn. rewrite IH. by destruct (raises c).
Qed.

Lemma remove_each_failed raises (kept clients : list client) :
  Forall (fun c => raises c = false) kept →
  remove_each (List.filter raises clients) (kept ++ clients)%list
  = ((kept ++ List.filter (fun c => negb (raises c)) clients)%list, None).
Proof.
  revert kept. induction clients as [|c clients IH]; intros kept Hkept.
  - cbn. by rewrite app_nil_r.
  - cbn [List.filter]. destruct (raises c) eqn:Hc; cbn [negb remove_each].
    + rewrite list_remove_middle; [by apply IH|].
      eapply Forall_impl; [exact Hkept|]. cbn. intros c' Hc' ->. congruence.
    + rewrite (cons_middle c kept clients), app_assoc, IH.
      * by rewrite <- app_assoc.
      * apply Forall_app. split; [done|]. by apply Forall_singleton.
Qed.

(** C6 does not hold of the code.  A tick finds three clients connected
    and none of them closed; its solver call returns.  The publish of that
    tick runs in the loop thread, where every send attempt raises: no
    client is handed the snapshot and all three are removed from the
    client list, instead of only a failing one. *)
Theorem tick_publish_reaches_no_client :
  websocket_clients running_twin = [1; 2; 3]%nat
  ∧ solve (quiet_env true (Some nominal_results)) = Some nominal_results
  ∧ (∀ c, send_raises (quiet_env true (Some nominal_results)) c = false)
  ∧ (simulation_tick (quiet_env true (Some nominal_results)) running_twin).2
    = []
  ∧ websocket_clients
      (simulation_tick (quiet_env true (Some nominal_results)) running_twin).1
    = [].
Proof. repeat split. Qed.

(** ** Status of the transformers *)

Lemma update_power_transformer_thermal env results id a :
  let a' := update_power_transformer env results id a in
  temperature a' = 45 + Qmin (power a' / 1000 / 315) 1 * 35 + normal env id
  ∧ status a' = thermal_status 70 85 (temperature a').
Proof.
  unfold update_power_transformer, thermal_status. cbv zeta.
  set (e := transformer_electrical _ _ _ _ a).
  cbn [temperature set_temperature].
  set (t := 45 + Qmin (power e / 1000 / 315) 1 * 35 + normal env id).
  destruct (Qgtb t 85) eqn:Hfault, (Qgtb t 70) eqn:Hwarning;
    cbn [temperature power status set_timestamp set_status set_health_score
         set_temperature]; by rewrite Hfault, ?Hwarning.
Qed.

Lemma update_distribution_transformer_thermal env results id a :
  let a' := update_distribution_transformer env results id a in
  temperature a' = 50 + Qmin (power a' / 1000 / 50) 1 * 30 + normal env id
  ∧ status a' = thermal_status 75 90 (temperature a').
Proof.
  unfold update_distribution_transformer, thermal_status. cbv zeta.
  set (e := transformer_electrical _ _ _ _ a).
  cbn [temperature set_temperature].
  set (t := 50 + Qmin (power e / 1000 / 50) 1 * 30 + normal env id).
  destruct (Qgtb t 90) eqn:Hfault, (Qgtb t 75) eqn:Hwarning;
    cbn [temperature power status set_timestamp set_status set_health_score
         set_temperature]; by rewrite Hfault, ?Hwarning.
Qed.

Lemma thermal_status_cases warning fault t :
  warning <= fault →
  (fault < t → thermal_status warning fault t = "fault")
  ∧ (warning < t ∧ t <= fault → thermal_status warning fault t = "warning")
  ∧ (t <= warning → thermal_status warning fault t = "healthy").
Proof.
  intros Hwf. unfold thermal_status.
  destruct (Qgtb t fault) eqn:Hf; [apply Qgtb_true in Hf|apply Qgtb_false in Hf];
    (destruct (Qgtb t warning) eqn:Hw;
      [apply Qgtb_true in Hw|apply Qgtb_false in Hw]);
    repeat split; intros; try done; lra.
Qed.

(** C4. When a tick updates a transformer, the new status is a function
    of the new temperature alone.  Power transformer: above 85 fault,
    above 70 and at most 85 warning, otherwise healthy.  Distribution
    transformer: above 90 fault, above 75 and at most 90 warning,
    otherwise healthy.  The health score plays no part.  The temperature is
    45 + min(load, 1) * 35 + noise for a power transformer, so a load
    factor of 0.9 without noise gives 76.5 and status warning. *)
Theorem transformer_status_from_temperature (env : TickEnv) (tw : Twin)
    (id : string) (a : AssetStatus) :
  dss_engine env = true → assets tw !! id = Some a →
  ∃ a',
    assets (_update_asset_statuses env tw) !! id = Some a'
    ∧ (id ∈ power_transformer_ids →
       temperature a'
       = 45 + Qmin (power a' / 1000 / 315) 1 * 35 + normal env id
       ∧ (85 < temperature a' → status a' = "fault")
       ∧ (70 < temperature a' ∧ temperature a' <= 85 → status a' = "warning")
       ∧ (temperature a' <= 70 → status a' = "healthy")
       ∧ (temperature a' == 45 + 0.9 * 35 → status a' = "warning"))
    ∧ (id ∈ distribution_transformer_ids →
       temperature a'
       = 50 + Qmin (power a' / 1000 / 50) 1 * 30 + normal env id
       ∧ (90 < temperature a' → status a' = "fault")
       ∧ (75 < temperature a' ∧ temperature a' <= 90 → status a' = "warning")
       ∧ (temperature a' <= 75 → status a' = "healthy")).
Proof.
  intros Hengine Hid. eexists. split.
  { rewrite lookup_update_asset_statuses, Hid by done. reflexivity. }
  unfold tick_asset. split; intros Hin.
  - unfold power_transformer_ids in *.
    assert (id ≠ "Grid400kV") by (split_elem Hin; done).
    rewrite decide_False, decide_True by done.
    destruct (update_power_transformer_thermal env (opendss_results tw) id a)
      as [Htemp Hstatus].
    destruct (thermal_status_cases 70 85
      (temperature (update_power_transformer env (opendss_results tw) id a)))
      as (Hf & Hw & Hh); [lra|].
    rewrite Hstatus. repeat split; try done.
    intros Heq. apply Hw. rewrite Heq. lra.
  - unfold distribution_transformer_ids, power_transformer_ids in *.
    assert (id ≠ "Grid400kV") by (split_elem Hin; done).
    assert (id ∉ ["TX1_400_220"; "TX2_400_220"])
      by (split_elem Hin; apply (bool_decide_unpack _); vm_compute; exact I).
    rewrite !decide_False, decide_True by done.
    destruct (update_distribution_transformer_thermal env (opendss_results tw)
                id a) as [Htemp Hstatus].
    destruct (thermal_status_cases 75 90
      (temperature (update_distribution_transformer env (opendss_results tw)
                      id a))) as (Hf & Hw & Hh); [lra|].
    rewrite Hstatus. repeat split; done.
Qed.

Lemma transformer_status_from_temperature_witness :
  ∃ a',
    assets (_update_asset_statuses loaded_env twin0) !! "TX1_400_220" = Some a'
    ∧ temperature a' == 76.5
    ∧ status a' = "warning".
Proof.
  edestruct (transformer_status_from_temperature loaded_env twin0
               "TX1_400_220") as (a' & Hlookup & Hpower & _).
  - reflexivity.
  - vm_compute. reflexivity.
  - exists a'. split; [exact Hlookup|].
    assert (temperature a' == 76.5) as Htemp.
    { vm_compute in Hlookup. injection Hlookup as <-. reflexivity. }
    split; [exact Htemp|].
    destruct Hpower as (_ & _ & _ & _ & Hscenario).
    + apply (bool_decide_unpack _). vm_compute. exact I.
    + apply Hscenario. rewrite Htemp. reflexivity.
Defined.

(** The scenario of C4 run on the code: 283.5 MW on a 315 MVA power
    transformer, no noise. *)
Example power_transformer_at_nine_tenths :
  (temperature <$>
     assets (_update_asset_statuses loaded_env twin0) !! "TX1_400_220")
  = Some (45 + (283500 / 1000 / 315) * 35 + 0)
  ∧ 45 + (283500 / 1000 / 315) * 35 + 0 == 76.5
  ∧ (status <$>
       assets (_update_asset_statuses loaded_env twin0) !! "TX1_400_220")
    = Some "warning"
  ∧ (health_score <$>
       assets (_update_asset_statuses loaded_env twin0) !! "TX1_400_220")
    = Some (Qmax 60 (95 - 0.1)).
Proof. vm_compute. by repeat split. Qed.

(** ** Circuit breakers *)

Lemma tick_asset_type env results k a :
  asset_type (tick_asset env results k a) = asset_type a.
Proof.
  unfold tick_asset. repeat case_decide; try done.
  - unfold update_power_transformer. cbv zeta.
    set (e := transformer_electrical _ _ _ _ a).
    assert (asset_type e = asset_type a) as <-
      by apply transformer_electrical_frame.
    by repeat destruct (Qgtb _ _).
  - unfold update_distribution_transformer. cbv zeta.
    set (e := transformer_electrical _ _ _ _ a).
    assert (asset_type e = asset_type a) as <-
      by apply transformer_electrical_frame.
    by repeat destruct (Qgtb _ _).
  - unfold update_circuit_breaker. cbv zeta.
    by destruct (status _ =? "fault").
  - unfold update_industrial_load.
    destruct (load_powers_voltages env ("Load." ++ k)) as [[powers voltages]|];
      [destruct (2 <=? length powers)%nat, (1 <=? length voltages)%nat|];
      cbv zeta; by destruct (Qgtb _ _).
Qed.

Lemma control_effect_type a a' :
  control_effect a a' → asset_type a' = asset_type a.
Proof. by destruct 1. Qed.

(** The registry built at start-up names its breakers CB_1 to CB_5, and
    neither a tick nor a control action changes that. *)
Lemma setup_breakers_named results now :
  breakers_named (_setup_assets results now).
Proof.
  unfold breakers_named, _setup_assets. cbv zeta. rewrite cb_ids_eq.
  unfold power_transformer_ids, distribution_transformer_ids.
  cbn [foldl].
  repeat (apply map_Forall_insert_2; [cbn [asset_type]|]);
    try apply map_Forall_empty; try discriminate.
  all: intros _; apply (bool_decide_unpack _); vm_compute; exact I.
Qed.

Lemma update_asset_statuses_breakers_named env tw :
  breakers_named (assets tw) →
  breakers_named (assets (_update_asset_statuses env tw)).
Proof.
  intros Hnamed. destruct (dss_engine env) eqn:Hengine.
  - intros id a'. rewrite lookup_update_asset_statuses by done.
    destruct (assets tw !! id) as [a|] eqn:Hid; [|done].
    intros [= <-]. rewrite tick_asset_type. by apply (Hnamed id a).
  - by rewrite lookup_update_asset_statuses_off.
Qed.

Lemma apply_control_breakers_named tw id action :
  breakers_named (assets tw) →
  breakers_named (assets (apply_control tw id action)).
Proof.
  intros Hnamed k a' Hk.
  destruct (apply_control_lookup_inv tw id action k a' Hk) as [a Hbefore].
  destruct (control_asset_lookup tw id action k a Hbefore) as (b & Hb & Heff).
  assert (b = a') as -> by congruence.
  rewrite (control_effect_type a a' Heff). by apply (Hnamed k a).
Qed.

(** C10, as the code has it.  When the engine is available, so that the
    asset update of the tick is not skipped, every circuit breaker whose
    status was not fault before the update has status healthy after it:
    an open or closed breaker is rewritten to healthy. *)
Theorem breaker_healthy_after_update (env : TickEnv) (tw : Twin)
    (id : string) (a : AssetStatus) :
  dss_engine env = true →
  breakers_named (assets tw) →
  assets tw !! id = Some a →
  asset_type a = "CircuitBreaker" →
  status a ≠ "fault" →
  (∃ a', assets (_update_asset_statuses env tw) !! id = Some a'
         ∧ status a' = "healthy")
  ∧ (∀ results, solve env = Some results →
       ∃ a', assets (simulation_tick env tw).1 !! id = Some a'
             ∧ status a' = "healthy").
Proof.
  intros Hengine Hnamed Hid Htype Hstatus.
  assert (∀ results,
    status (tick_asset env results id a) = "healthy") as Hhealthy.
  { intros results. pose proof (Hnamed id a Hid Htype) as Hin.
    unfold tick_asset. rewrite cb_ids_eq in *.
    assert (id ≠ "Grid400kV") by (split_elem Hin; done).
    assert (id ∉ power_transformer_ids)
      by (split_elem Hin; apply (bool_decide_unpack _); vm_compute; exact I).
    assert (id ∉ distribution_transformer_ids)
      by (split_elem Hin; apply (bool_decide_unpack _); vm_compute; exact I).
    rewrite !decide_False, decide_True by done.
    unfold update_circuit_breaker. cbv zeta.
    cbn [status set_temperature].
    apply String.eqb_neq in Hstatus. by rewrite Hstatus. }
  split.
  - rewrite lookup_update_asset_statuses, Hid by done. eauto.
  - intros results Hsolve. rewrite simulation_tick_assets, Hsolve.
    rewrite lookup_update_asset_statuses by done.
    cbn [assets set_opendss_results]. rewrite Hid. eauto.
Qed.

Lemma breaker_healthy_after_update_witness :
  (∃ a', assets (_update_asset_statuses loaded_env opened_twin) !! "CB_1"
         = Some a'
         ∧ status a' = "healthy")
  ∧ (∀ results, solve loaded_env = Some results →
       ∃ a', assets (simulation_tick loaded_env opened_twin).1 !! "CB_1"
             = Some a'
             ∧ status a' = "healthy").
Proof.
  eapply (breaker_healthy_after_update loaded_env opened_twin "CB_1").
  - reflexivity.
  - apply (bool_decide_unpack _). vm_compute. exact I.
  - vm_compute. reflexivity.
  - reflexivity.
  - vm_compute. discriminate.
Defined.

(** C10, as stated, fails: with the engine unavailable the update is
    skipped, and the breaker the operator opened is still open after the
    tick. *)
Lemma open_breaker_survives_skipped_update :
  (asset_type <$> assets opened_twin !! "CB_1") = Some "CircuitBreaker"
  ∧ (status <$> assets opened_twin !! "CB_1") = Some "open"
  ∧ (status <$>
       assets (_update_asset_statuses
                 (quiet_env false (Some nominal_results)) opened_twin)
       !! "CB_1") = Some "open"
  ∧ (status <$>
       assets (simulation_tick
                 (quiet_env false (Some nominal_results)) opened_twin).1
       !! "CB_1") = Some "open".
Proof. vm_compute. by repeat split. Qed.

(** ** Invariants of the reachable twins *)

Lemma setup_health_in_range results now :
  map_Forall (fun _ a => health_in_range a) (_setup_assets results now).
Proof.
  unfold _setup_assets, health_in_range. cbv zeta. rewrite cb_ids_eq.
  unfold power_transformer_ids, distribution_transformer_ids.
  cbn [foldl].
  repeat (apply map_Forall_insert_2; [cbn [health_score]; lra|]).
  apply map_Forall_empty.
Qed.

(** From start-up on, every health score of the registry lies in
    [0, 100] and the breakers are CB_1 to CB_5. *)
Lemma reachable_invariant tw :
  reachable tw →
  map_Forall (fun _ a => health_in_range a) (assets tw)
  ∧ breakers_named (assets tw).
Proof.
  induction 1 as [results now|env tw _ [IHh IHb]|tw id action _ [IHh IHb]
                 |tw draws type location _ IH|tw c _ IH]; [| | |done|done].
  - split; [apply setup_health_in_range|apply setup_breakers_named].
  - rewrite simulation_tick_assets.
    destruct (solve env) as [results|]; [|done]. split.
    + intros id a' Hid.
      destruct (update_asset_statuses_lookup_inv env _ id a' Hid)
        as [a Hbefore].
      destruct (update_asset_statuses_health env
                  (set_opendss_results tw results) id a Hbefore
                  (IHh id a Hbefore)) as (b & Hb & Hrange).
      congruence.
    + by apply (update_asset_statuses_breakers_named env
                  (set_opendss_results tw results)).
  - split; [|by apply apply_control_breakers_named].
    intros k a' Hk.
    destruct (apply_control_lookup_inv tw id action k a' Hk) as [a Hbefore].
    destruct (control_asset_lookup tw id action k a Hbefore)
      as (b & Hb & Heff).
    assert (b = a') as -> by congruence.
    apply (control_effect_health a a' Heff), (IHh k a Hbefore).
Qed.

(** * Further properties of the twin *)

(** ** Substation metrics *)

Lemma Qdiv_nonneg a b : 0 <= a → 0 < b → 0 <= a / b.
Proof. intros Ha Hb. apply Qle_shift_div_l; [done|]. lra. Qed.

Lemma Qabs_milli_nonneg x : 0 <= Qabs x / 1000.
Proof. apply Qdiv_nonneg; [apply Qabs_nonneg|reflexivity]. Qed.

(** X1. The efficiency written by [_update_substation_metrics] is never
    negative, and it is 0 exactly in the cases where delivered power plus
    losses is not positive, negative losses that outweigh the power
    included.  It is at most 100 when the solve result reports no negative
    losses; with negative losses that do not outweigh the power it exceeds
    100. *)
Theorem efficiency_bounds (env : TickEnv) (tw : Twin) :
  let power := Qabs (get (total_power_kw (opendss_results tw)) 0) / 1000 in
  let losses := get (total_losses_mw (opendss_results tw)) 0 in
  let e := efficiency (metrics (_update_substation_metrics env tw)) in
  0 <= e
  ∧ (power + losses <= 0 → e = 0)
  ∧ (0 < power + losses → e = power / (power + losses) * 100)
  ∧ (0 <= losses → e <= 100)
  ∧ (losses < 0 → 0 < power + losses → 100 < e).
Proof.
  cbn.
  set (p := Qabs (get (total_power_kw (opendss_results tw)) 0) / 1000).
  set (l := get (total_losses_mw (opendss_results tw)) 0).
  assert (0 <= p) as Hp by apply Qabs_milli_nonneg.
  destruct (Qgtb (p + l) 0) eqn:Hin.
  - apply Qgtb_true in Hin.
    assert (0 <= p / (p + l)) by by apply Qdiv_nonneg.
    split; [lra|]. split; [intros; lra|]. split; [done|]. split.
    + intros Hl.
      assert (p / (p + l) <= 1) by (apply Qle_shift_div_r; [done|lra]).
      lra.
    + intros Hl _.
      assert (1 < p / (p + l)) by (apply Qlt_shift_div_l; [done|lra]).
      lra.
  - apply Qgtb_false in Hin.
    split; [lra|]. split; [done|]. split; [intros; lra|].
    split; [intros; lra|]. intros; lra.
Qed.

Lemma efficiency_bounds_witness :
  efficiency
    (metrics (_update_substation_metrics (quiet_env true None)
       (set_opendss_results twin0
          (mkResults None None (Some 1000) None (Some (-3)) None None
                     (Some true))))) = 0
  ∧ 100 < efficiency
            (metrics (_update_substation_metrics (quiet_env true None)
               (set_opendss_results twin0
                  (mkResults None None (Some 4000) None (Some (-3)) None None
                             (Some true))))).
Proof.
  split.
  - apply (proj1 (proj2 (efficiency_bounds (quiet_env true None)
      (set_opendss_results twin0
         (mkResults None None (Some 1000) None (Some (-3)) None None
                    (Some true)))))).
    vm_compute. discriminate.
  - apply (proj2 (proj2 (proj2 (proj2 (efficiency_bounds (quiet_env true None)
      (set_opendss_results twin0
         (mkResults None None (Some 4000) None (Some (-3)) None None
                    (Some true)))))))); reflexivity.
Defined.

(** X2. After [_update_substation_metrics] the voltage stability is never
    negative, it is at most 100 when the maximum voltage is not below the
    minimum, and it is 100 when the result carries neither voltage; the
    total power equals the total load and is never negative; the fault
    count is the one the twin had. *)
Theorem metrics_bounds (env : TickEnv) (tw : Twin) :
  let results := opendss_results tw in
  let m := metrics (_update_substation_metrics env tw) in
  0 <= voltage_stability m
  ∧ (get (min_voltage_pu results) 1 <= get (max_voltage_pu results) 1 →
     voltage_stability m <= 100)
  ∧ (min_voltage_pu results = None → max_voltage_pu results = None →
     voltage_stability m == 100)
  ∧ total_power m = total_load m
  ∧ 0 <= total_power m
  ∧ frequency m = 50 + frequency_noise env
  ∧ fault_count m = fault_count (metrics tw).
Proof.
  cbn.
  set (hi := get (max_voltage_pu (opendss_results tw)) 1).
  set (lo := get (min_voltage_pu (opendss_results tw)) 1).
  split; [apply Q.le_max_l|]. split; [intros Hle; apply Q.max_lub; lra|].
  split; [intros Hlo Hhi; subst hi lo; by rewrite Hlo, Hhi|].
  split; [done|]. split; [apply Qabs_milli_nonneg|done].
Qed.

Lemma metrics_bounds_witness :
  voltage_stability (metrics (_update_substation_metrics (quiet_env true None)
                                twin0)) <= 100.
Proof.
  apply (proj1 (proj2 (metrics_bounds (quiet_env true None) twin0))).
  vm_compute. discriminate.
Defined.

(** ** The registry keeps its shape *)

Lemma tick_asset_id env results k a :
  asset_id (tick_asset env results k a) = asset_id a.
Proof.
  unfold tick_asset. repeat case_decide; try done.
  - unfold update_power_transformer. cbv zeta.
    set (e := transformer_electrical _ _ _ _ a).
    assert (asset_id e = asset_id a) as <-
      by apply transformer_electrical_frame.
    by repeat destruct (Qgtb _ _).
  - unfold update_distribution_transformer. cbv zeta.
    set (e := transformer_electrical _ _ _ _ a).
    assert (asset_id e = asset_id a) as <-
      by apply transformer_electrical_frame.
    by repeat destruct (Qgtb _ _).
  - unfold update_circuit_breaker. cbv zeta.
    by destruct (status _ =? "fault").
  - unfold update_industrial_load.
    destruct (load_powers_voltages env ("Load." ++ k)) as [[powers voltages]|];
      [destruct (2 <=? length powers)%nat, (1 <=? length voltages)%nat|];
      cbv zeta; by destruct (Qgtb _ _).
Qed.

Lemma control_effect_id a a' : control_effect a a' → asset_id a' = asset_id a.
Proof. by destruct 1. Qed.

Lemma update_asset_statuses_dom env tw :
  dom (assets (_update_asset_statuses env tw)) = dom (assets tw).
Proof.
  destruct (dss_engine env) eqn:Hengine;
    [|by rewrite lookup_update_asset_statuses_off].
  apply set_eq. intros k. rewrite !elem_of_dom.
  rewrite lookup_update_asset_statuses by done.
  by rewrite fmap_is_Some.
Qed.

Lemma apply_control_dom tw id action :
  dom (assets (apply_control tw id action)) = dom (assets tw).
Proof.
  apply set_eq. intros k. rewrite !elem_of_dom. split.
  - intros [a' Hk]. by apply (apply_control_lookup_inv tw id action k a').
  - intros [a Hk].
    destruct (control_asset_lookup tw id action k a Hk) as (a' & -> & _).
    done.
Qed.

Lemma setup_registry_shape results now :
  registry_shape (_setup_assets results now).
Proof.
  split.
  - unfold _setup_assets. cbv zeta. rewrite cb_ids_eq.
    unfold power_transformer_ids, distribution_transformer_ids.
    cbn [foldl]. rewrite !dom_insert_L, dom_empty_L.
    apply (bool_decide_unpack _). vm_compute. exact I.
  - unfold _setup_assets. cbv zeta. rewrite cb_ids_eq.
    unfold power_transformer_ids, distribution_transformer_ids.
    cbn [foldl].
    repeat (apply map_Forall_insert_2; [cbn [asset_id asset_type]|]);
      try apply map_Forall_empty.
    all: split; [done|]. all: vm_compute; reflexivity.
Qed.

Lemma simulation_loop_preserves (P : Twin → Prop) :
  (∀ env tw, P tw → P (simulation_tick env tw).1) →
  (∀ tw b, P tw → P (set_is_running tw b)) →
  ∀ schedule tw, P tw → P (_simulation_loop schedule tw).1.
Proof.
  intros Htick Hrun schedule.
  induction schedule as [|[env stop] rest IH]; intros tw Htw; [done|].
  cbn [_simulation_loop]. destruct (is_running tw); [|done].
  pose proof (Htick env tw Htw) as Hnext.
  destruct (simulation_tick env tw) as [tw1 sent]. cbn [fst] in Hnext.
  destruct stop.
  - pose proof (IH _ (Hrun tw1 false Hnext)) as Hrest.
    unfold set_is_running in Hrest.
    by destruct (_simulation_loop rest _).
  - pose proof (IH _ Hnext) as Hrest.
    by destruct (_simulation_loop rest _).
Qed.

Lemma update_asset_statuses_registry_shape env tw :
  registry_shape (assets tw) →
  registry_shape (assets (_update_asset_statuses env tw)).
Proof.
  intros [Hdom Hall]. split; [by rewrite update_asset_statuses_dom|].
  intros k a' Hk.
  destruct (update_asset_statuses_lookup_inv env tw k a' Hk) as [a Ha].
  destruct (dss_engine env) eqn:Hengine.
  - rewrite lookup_update_asset_statuses, Ha in Hk by done.
    injection Hk as <-. rewrite tick_asset_id, tick_asset_type.
    by apply (Hall k a).
  - rewrite lookup_update_asset_statuses_off in Hk by done.
    by apply (Hall k a').
Qed.

Lemma simulation_tick_registry_shape env tw :
  registry_shape (assets tw) →
  registry_shape (assets (simulation_tick env tw).1).
Proof.
  intros Hshape. rewrite simulation_tick_assets.
  destruct (solve env) as [results|]; [|done].
  by apply (update_asset_statuses_registry_shape env
              (set_opendss_results tw results)).
Qed.

(** X3. The registry always holds exactly the twelve assets created at
    start-up, each stored under its own id and with the class it was
    given: no asset update, tick, run of the loop, control action or fault
    analysis adds, removes, renames or reclassifies an asset. *)
Theorem registry_shape_invariant :
  (∀ results now, registry_shape (assets (new_twin results now)))
  ∧ ∀ tw,
      registry_shape (assets tw) →
      (∀ env, registry_shape (assets (_update_asset_statuses env tw)))
      ∧ (∀ env, registry_shape (assets (simulation_tick env tw).1))
      ∧ (∀ schedule,
           registry_shape (assets (_simulation_loop schedule tw).1))
      ∧ (∀ id action, registry_shape (assets (apply_control tw id action)))
      ∧ (∀ draws type location,
           registry_shape
             (assets (run_fault_analysis tw draws type location).1)).
Proof.
  split; [intros; apply setup_registry_shape|].
  intros tw Hshape. split; [|split; [|split; [|split; [|done]]]].
  - intros env. by apply update_asset_statuses_registry_shape.
  - intros env. by apply simulation_tick_registry_shape.
  - intros schedule.
    apply (simulation_loop_preserves (fun tw => registry_shape (assets tw)));
      [intros; by apply simulation_tick_registry_shape|done|done].
  - intros id action. destruct Hshape as [Hdom Hall].
    split; [by rewrite apply_control_dom|].
    intros k a' Hk.
    destruct (apply_control_lookup_inv tw id action k a' Hk) as [a Ha].
    destruct (control_asset_lookup tw id action k a Ha) as (b & Hb & Heff).
    assert (b = a') as -> by congruence.
    rewrite (control_effect_id a a' Heff), (control_effect_type a a' Heff).
    by apply (Hall k a).
Qed.

Lemma registry_shape_invariant_witness :
  registry_shape
    (assets (_simulation_loop [(loaded_env, false); (flaky_env, true)]
               (apply_control running_twin "CB_1" "open")).1).
Proof.
  refine (proj1 (proj2 (proj2
            (proj2 registry_shape_invariant
               (apply_control running_twin "CB_1" "open") _)))
            [(loaded_env, false); (flaky_env, true)]).
  apply (bool_decide_unpack _). vm_compute. exact I.
Defined.

(** ** The fault counter *)

(** X4. The fault counter of the metrics always equals the number of
    records in the ledger: both start at zero, [run_fault_analysis] adds
    one to each, and the metrics recomputed by a tick carry the counter
    over. *)
Theorem ledger_count_invariant :
  (∀ results now, ledger_consistent (new_twin results now))
  ∧ ∀ tw,
      ledger_consistent tw →
      (∀ draws type location,
         ledger_consistent (run_fault_analysis tw draws type location).1)
      ∧ (∀ env, ledger_consistent (_update_substation_metrics env tw))
      ∧ (∀ env, ledger_consistent (simulation_tick env tw).1)
      ∧ (∀ schedule, ledger_consistent (_simulation_loop schedule tw).1)
      ∧ (∀ id action, ledger_consistent (apply_control tw id action)).
Proof.
  split; [done|]. intros tw Hok.
  assert (∀ env tw, ledger_consistent tw →
                    ledger_consistent (simulation_tick env tw).1) as Htick.
  { unfold ledger_consistent. intros env tw' Hok'.
    destruct (simulation_tick_faults env tw') as [-> ->]. done. }
  split; [|split; [done|split; [|split]]].
  - intros draws type location. unfold ledger_consistent in *. cbn.
    rewrite length_app, Hok. cbn. lia.
  - intros env. by apply Htick.
  - intros schedule. by apply simulation_loop_preserves.
  - intros id action. unfold ledger_consistent in *.
    by destruct (apply_control_frame tw id action) as (-> & -> & _).
Qed.

Lemma ledger_count_invariant_witness :
  ledger_consistent
    (simulation_tick loaded_env
       (run_fault_analysis twin0 (mkDraws 0.5 5000 0.2 "t2")
          "three_phase" "Bus220").1).1.
Proof.
  apply (proj2 ledger_count_invariant).
  apply (proj2 ledger_count_invariant twin0).
  reflexivity.
Defined.

(** ** Running and stopping the loop *)

Lemma simulation_loop_not_running schedule tw :
  is_running tw = false → _simulation_loop schedule tw = (tw, []).
Proof. intros Hrun. destruct schedule as [|[env stop] rest]; cbn; by rewrite ?Hrun. Qed.

Lemma simulation_tick_is_running env tw :
  is_running (simulation_tick env tw).1 = is_running tw.
Proof.
  unfold simulation_tick. destruct (solve env) as [results|]; [|done].
  set (tw1 := _run_ai_analysis _).
  pose proof (broadcast_frame (in_loop_thread env) tw1) as (_ & _ & _ & _ & Hrun).
  destruct (_broadcast_updates (in_loop_thread env) tw1) as [[tw' sent] raised].
  cbn [fst] in *. rewrite Hrun. subst tw1. cbn.
  by destruct (update_asset_statuses_frame env
                 (set_opendss_results tw results)) as (_ & _ & _ & _ & ->).
Qed.

Lemma simulation_loop_ticks schedule tw :
  is_running tw = true →
  Forall (fun entry => entry.2 = false) schedule →
  _simulation_loop schedule tw = tick_each schedule.*1 tw
  ∧ is_running (tick_each schedule.*1 tw).1 = true.
Proof.
  revert tw. induction schedule as [|[env stop] rest IH]; intros tw Hrun Hall;
    [done|].
  apply Forall_cons in Hall as [Hstop Hall]. cbn in Hstop. subst stop.
  cbn [_simulation_loop tick_each fmap list_fmap fst]. rewrite Hrun.
  pose proof (simulation_tick_is_running env tw) as Hnext.
  destruct (simulation_tick env tw) as [tw1 sent]. cbn [fst] in Hnext.
  rewrite Hrun in Hnext. destruct (IH tw1 Hnext Hall) as [-> Hfinal].
  by destruct (tick_each rest.*1 tw1).
Qed.

(** X5. [_simulation_loop] runs no tick on a twin that is not running.
    On a running twin it runs the ticks of the schedule one after the
    other, each on the twin the previous one left, for as long as nobody
    asks to stop; the tick during which the stop is requested is the last
    one: the loop returns the twin that tick left, with the running flag
    cleared, and whatever is scheduled later has no effect. *)
Theorem simulation_loop_stops (tw : Twin) :
  (is_running tw = false →
   ∀ schedule, _simulation_loop schedule tw = (tw, []))
  ∧ (is_running tw = true →
     ∀ schedule, Forall (fun entry => entry.2 = false) schedule →
       _simulation_loop schedule tw = tick_each schedule.*1 tw
       ∧ is_running (_simulation_loop schedule tw).1 = true)
  ∧ (is_running tw = true →
     ∀ before env rest, Forall (fun entry => entry.2 = false) before →
       _simulation_loop (before ++ (env, true) :: rest) tw
       = (set_is_running (tick_each (before.*1 ++ [env]) tw).1 false,
          (tick_each (before.*1 ++ [env]) tw).2))
  ∧ (∀ env tw', tick_each [env] tw' = ((simulation_tick env tw').1,
                                       [(simulation_tick env tw').2]))
  ∧ (∀ envs envs' tw',
       tick_each (envs ++ envs') tw'
       = ((tick_each envs' (tick_each envs tw').1).1,
          ((tick_each envs tw').2
           ++ (tick_each envs' (tick_each envs tw').1).2)%list)).
Proof.
  split; [intros Hrun schedule; by apply simulation_loop_not_running|].
  split.
  { intros Hrun schedule Hall.
    destruct (simulation_loop_ticks schedule tw Hrun Hall) as [Heq Hfinal].
    by rewrite Heq. }
  split.
  { intros Hrun before env rest. revert tw Hrun.
    induction before as [|[env' stop] before IH]; intros tw Hrun Hall.
    - cbn [app fmap list_fmap _simulation_loop tick_each]. rewrite Hrun.
      destruct (simulation_tick env tw) as [tw1 sent].
      by rewrite (simulation_loop_not_running rest).
    - apply Forall_cons in Hall as [Hstop Hall]. cbn in Hstop. subst stop.
      cbn [app fmap list_fmap fst _simulation_loop tick_each]. rewrite Hrun.
      pose proof (simulation_tick_is_running env' tw) as Hnext.
      destruct (simulation_tick env' tw) as [tw1 sent]. cbn [fst] in Hnext.
      rewrite Hrun in Hnext. rewrite (IH tw1 Hnext Hall).
      by destruct (tick_each (before.*1 ++ [env]) tw1). }
  split.
  { intros env tw'. cbn [tick_each].
    by destruct (simulation_tick env tw'). }
  intros envs envs'. induction envs as [|env envs IH]; intros tw'.
  - cbn [app tick_each fst snd]. by destruct (tick_each envs' tw').
  - cbn [app tick_each]. destruct (simulation_tick env tw') as [tw1 sent].
    rewrite (IH tw1).
    destruct (tick_each envs tw1) as [tw2 trace]. cbn [fst snd].
    by destruct (tick_each envs' tw2).
Qed.

Lemma simulation_loop_stops_witness :
  _simulation_loop [(loaded_env, false); (flaky_env, false)] running_twin
  = tick_each [loaded_env; flaky_env] running_twin
  ∧ is_running (_simulation_loop [(loaded_env, false); (flaky_env, false)]
                  running_twin).1 = true.
Proof.
  refine (proj1 (proj2 (simulation_loop_stops running_twin)) _
            [(loaded_env, false); (flaky_env, false)] _).
  - reflexivity.
  - repeat constructor.
Defined.

(** X6. [start_simulation] starts a loop thread exactly when the twin is
    not running; a second call changes nothing and starts no second
    thread.  [stop_simulation] is idempotent, and a loop that tests its
    condition after it runs no tick.  Neither touches the registry, the
    metrics, the ledger or the client list. *)
Theorem start_stop_simulation (tw : Twin) :
  (start_simulation tw).2 = negb (is_running tw)
  ∧ is_running (start_simulation tw).1 = true
  ∧ start_simulation (start_simulation tw).1 = ((start_simulation tw).1, false)
  ∧ stop_simulation (stop_simulation tw) = stop_simulation tw
  ∧ (∀ schedule,
       _simulation_loop schedule (stop_simulation tw)
       = (stop_simulation tw, []))
  ∧ (start_simulation (stop_simulation tw)).2 = true
  ∧ (∀ tw', tw' = (start_simulation tw).1 ∨ tw' = stop_simulation tw →
            assets tw' = assets tw ∧ metrics tw' = metrics tw
            ∧ faults tw' = faults tw
            ∧ websocket_clients tw' = websocket_clients tw).
Proof.
  unfold start_simulation, stop_simulation.
  split; [by destruct (is_running tw)|].
  split; [by destruct (is_running tw) eqn:Hrun|].
  split; [by destruct (is_running tw) eqn:Hrun; cbn; rewrite ?Hrun|].
  split; [done|].
  split; [intros schedule; by apply simulation_loop_not_running|].
  split; [done|].
  intros tw' [->| ->]; by destruct (is_running tw).
Qed.

(** ** The update, class by class *)

Lemma tick_asset_cases env results k a :
  (k = "Grid400kV" →
   tick_asset env results k a = update_grid results (current_time env) a)
  ∧ (k ∈ power_transformer_ids →
     tick_asset env results k a = update_power_transformer env results k a)
  ∧ (k ∈ distribution_transformer_ids →
     tick_asset env results k a
     = update_distribution_transformer env results k a)
  ∧ (k ∈ cb_ids → tick_asset env results k a = update_circuit_breaker env k a)
  ∧ (k ∈ load_ids → tick_asset env results k a = update_industrial_load env k a)
  ∧ (k ∉ all_ids → tick_asset env results k a = a).
Proof.
  unfold tick_asset, all_ids.
  rewrite cb_ids_eq.
  unfold power_transformer_ids, distribution_transformer_ids, load_ids.
  repeat split.
  - intros ->. by closed_decide.
  - intros Hin. split_elem Hin; by closed_decide.
  - intros Hin. split_elem Hin; by closed_decide.
  - intros Hin. split_elem Hin; by closed_decide.
  - intros Hin. split_elem Hin; by closed_decide.
  - intros Hout. cbn [app] in Hout. rewrite !not_elem_of_cons in Hout.
    destruct Hout as (? & ? & ? & ? & ? & ? & ? & ? & ? & ? & ? & ? & _).
    repeat case_decide; try done.
    all: match goal with H : _ ∈ _ |- _ => split_elem H; done end.
Qed.

Lemma transformer_electrical_power reply total divisor bus a :
  0 < divisor →
  0 <= power (transformer_electrical reply total divisor bus a)
  ∧ 0 <= current (transformer_electrical reply total divisor bus a).
Proof.
  intros Hdiv. unfold transformer_electrical.
  set (a1 := match reply with
             | Some powers =>
               if (2 <=? length powers)%nat
               then set_power a (Qabs (nth 0 powers 0))
               else set_power a (Qabs total / divisor)
             | None => set_power a (Qabs total / divisor)
             end).
  assert (0 <= power a1) as Hp.
  { subst a1. destruct reply as [powers|];
      [destruct (2 <=? length powers)%nat|]; cbn;
      (apply Qabs_nonneg || (apply Qdiv_nonneg; [apply Qabs_nonneg|done])). }
  cbv zeta. cbn [power current voltage set_current set_voltage].
  split; [done|].
  destruct (Qgtb bus 0) eqn:Hbus; [|done].
  apply Qgtb_true in Hbus. apply Qdiv_nonneg; [done|]. lra.
Qed.

Lemma update_power_transformer_power env results id a :
  let a' := update_power_transformer env results id a in
  0 <= power a' ∧ 0 <= current a'.
Proof.
  unfold update_power_transformer. cbv zeta.
  set (e := transformer_electrical _ _ _ _ a).
  assert (0 <= power e ∧ 0 <= current e) as He
    by (by apply transformer_electrical_power).
  by repeat destruct (Qgtb _ _).
Qed.

Lemma update_distribution_transformer_power env results id a :
  let a' := update_distribution_transformer env results id a in
  0 <= power a' ∧ 0 <= current a'.
Proof.
  unfold update_distribution_transformer. cbv zeta.
  set (e := transformer_electrical _ _ _ _ a).
  assert (0 <= power e ∧ 0 <= current e) as He
    by (by apply transformer_electrical_power).
  by repeat destruct (Qgtb _ _).
Qed.

Lemma load_factor_bounds p rated :
  0 <= p → 0 < rated → 0 <= Qmin (p / 1000 / rated) 1 <= 1.
Proof.
  intros Hp Hrated.
  assert (0 <= p / 1000 / rated)
    by (apply Qdiv_nonneg; [apply Qdiv_nonneg|]; done).
  split; [apply Q.min_glb; lra|apply Q.le_min_r].
Qed.

(** X7. Because the load factor is capped at 1, the temperature a tick
    gives a power transformer lies between 45 and 80 plus the noise draw,
    and that of a distribution transformer between 50 and 80 plus the
    noise: a tick can put a power transformer in fault only with a noise
    draw above 5, a distribution transformer only with one above 10,
    whatever the load. *)
Theorem transformer_temperature_bounds (env : TickEnv) (tw : Twin)
    (id : string) (a : AssetStatus) :
  dss_engine env = true → assets tw !! id = Some a →
  ∃ a',
    assets (_update_asset_statuses env tw) !! id = Some a'
    ∧ (id ∈ power_transformer_ids →
       45 + normal env id <= temperature a' <= 80 + normal env id
       ∧ (normal env id <= 5 → status a' ≠ "fault")
       ∧ (status a' = "fault" → 5 < normal env id))
    ∧ (id ∈ distribution_transformer_ids →
       50 + normal env id <= temperature a' <= 80 + normal env id
       ∧ (normal env id <= 10 → status a' ≠ "fault")
       ∧ (status a' = "fault" → 10 < normal env id)).
Proof.
  intros Hengine Hid. eexists. split.
  { rewrite lookup_update_asset_statuses, Hid by done. reflexivity. }
  destruct (tick_asset_cases env (opendss_results tw) id a)
    as (_ & Hpt & Hdt & _).
  split; intros Hin.
  - rewrite (Hpt Hin).
    destruct (update_power_transformer_thermal env (opendss_results tw) id a)
      as [Htemp Hstatus].
    destruct (update_power_transformer_power env (opendss_results tw) id a)
      as [Hpower _].
    set (a' := update_power_transformer env (opendss_results tw) id a) in *.
    destruct (load_factor_bounds (power a') 315 Hpower eq_refl) as [Hlo Hhi].
    assert (45 + normal env id <= temperature a' <= 80 + normal env id)
      as Hbounds by (rewrite Htemp; lra).
    assert (status a' = "fault" → 5 < normal env id) as Hfault.
    { rewrite Hstatus. unfold thermal_status.
      destruct (Qgtb (temperature a') 85) eqn:Hf;
        [apply Qgtb_true in Hf; intros _; lra|].
      by destruct (Qgtb (temperature a') 70). }
    split; [done|]. split; [|done].
    intros Hnoise Hs. apply Hfault in Hs. lra.
  - rewrite (Hdt Hin).
    destruct (update_distribution_transformer_thermal env (opendss_results tw)
                id a) as [Htemp Hstatus].
    destruct (update_distribution_transformer_power env (opendss_results tw)
                id a) as [Hpower _].
    set (a' := update_distribution_transformer env (opendss_results tw) id a)
      in *.
    destruct (load_factor_bounds (power a') 50 Hpower eq_refl) as [Hlo Hhi].
    assert (50 + normal env id <= temperature a' <= 80 + normal env id)
      as Hbounds by (rewrite Htemp; lra).
    assert (status a' = "fault" → 10 < normal env id) as Hfault.
    { rewrite Hstatus. unfold thermal_status.
      destruct (Qgtb (temperature a') 90) eqn:Hf;
        [apply Qgtb_true in Hf; intros _; lra|].
      by destruct (Qgtb (temperature a') 75). }
    split; [done|]. split; [|done].
    intros Hnoise Hs. apply Hfault in Hs. lra.
Qed.

Lemma transformer_temperature_bounds_witness :
  ∃ a',
    assets (_update_asset_statuses loaded_env twin0) !! "TX1_400_220" = Some a'
    ∧ status a' ≠ "fault".
Proof.
  edestruct (transformer_temperature_bounds loaded_env twin0 "TX1_400_220")
    as (a' & Hlookup & Hpower & _).
  - reflexivity.
  - vm_compute. reflexivity.
  - exists a'. split; [exact Hlookup|]. apply Hpower.
    + apply (bool_decide_unpack _). vm_compute. exact I.
    + vm_compute. discriminate.
Defined.

(** X8. A tick that leaves a transformer in warning sets its health score
    to max(60, h - 0.1): never below 60, and raised to 60 when it was
    lower (after trips, say).  A tick that leaves an industrial load in
    warning does the same with the floor 70. *)
Theorem warning_health_floor (env : TickEnv) (tw : Twin) (id : string)
    (a : AssetStatus) :
  dss_engine env = true → assets tw !! id = Some a →
  ∃ a',
    assets (_update_asset_statuses env tw) !! id = Some a'
    ∧ (id ∈ (power_transformer_ids ++ distribution_transformer_ids)%list →
       status a' = "warning" →
       health_score a' = Qmax 60 (health_score a - 0.1)
       ∧ 60 <= health_score a'
       ∧ (health_score a <= 60 → health_score a' == 60))
    ∧ (id ∈ load_ids →
       status a' = "warning" →
       health_score a' = Qmax 70 (health_score a - 0.1)
       ∧ 70 <= health_score a'
       ∧ (health_score a <= 70 → health_score a' == 70)).
Proof.
  intros Hengine Hid. eexists. split.
  { rewrite lookup_update_asset_statuses, Hid by done. reflexivity. }
  destruct (tick_asset_cases env (opendss_results tw) id a)
    as (_ & Hpt & Hdt & _ & Hload & _).
  assert (∀ lo h, h <= lo → Qmax lo (h - 0.1) == lo) as Hfloor.
  { intros lo h Hle. apply Q.max_l. lra. }
  split.
  - intros [Hin|Hin]%elem_of_app.
    + rewrite (Hpt Hin). unfold update_power_transformer. cbv zeta.
      set (e := transformer_electrical _ _ _ _ a).
      assert (health_score e = health_score a) as Hh
        by apply transformer_electrical_frame.
      clearbody e. repeat destruct (Qgtb _ _); cbn; try done.
      intros _. rewrite Hh.
      split; [done|]. split; [apply Q.le_max_l|apply Hfloor].
    + rewrite (Hdt Hin). unfold update_distribution_transformer. cbv zeta.
      set (e := transformer_electrical _ _ _ _ a).
      assert (health_score e = health_score a) as Hh
        by apply transformer_electrical_frame.
      clearbody e. repeat destruct (Qgtb _ _); cbn; try done.
      intros _. rewrite Hh.
      split; [done|]. split; [apply Q.le_max_l|apply Hfloor].
  - intros Hin. rewrite (Hload Hin). unfold update_industrial_load.
    destruct (load_powers_voltages env ("Load." ++ id))
      as [[powers voltages]|];
      [destruct (2 <=? length powers)%nat, (1 <=? length voltages)%nat|];
      cbn; destruct (Qgtb _ _); cbn; try done;
      (intros _; split; [done|]; split; [apply Q.le_max_l|apply Hfloor]).
Qed.

Lemma warning_health_floor_witness :
  ∃ a',
    assets (_update_asset_statuses loaded_env worn_twin) !! "TX1_400_220"
    = Some a'
    ∧ health_score a' = Qmax 60 (45 - 0.1)
    ∧ 60 <= health_score a'
    ∧ (45 <= 60 → health_score a' == 60).
Proof.
  edestruct (warning_health_floor loaded_env worn_twin "TX1_400_220")
    as (a' & Hlookup & Htransformer & _).
  - reflexivity.
  - vm_compute. reflexivity.
  - exists a'. split; [exact Hlookup|]. apply Htransformer.
    + apply (bool_decide_unpack _). vm_compute. exact I.
    + vm_compute in Hlookup. injection Hlookup as <-. reflexivity.
Defined.

(** ** A tripped breaker *)

Lemma update_asset_statuses_breaker env tw id a :
  id ∈ cb_ids → assets tw !! id = Some a → status a = "fault" →
  ∃ a',
    assets (_update_asset_statuses env tw) !! id = Some a'
    ∧ status a' = "fault"
    ∧ health_score a'
      = if dss_engine env then Qmax 0 (health_score a - 1)
        else health_score a.
Proof.
  intros Hin Hid Hfault. destruct (dss_engine env) eqn:Hengine.
  - rewrite lookup_update_asset_statuses, Hid by done.
    destruct (tick_asset_cases env (opendss_results tw) id a)
      as (_ & _ & _ & Hcb & _).
    eexists. split; [reflexivity|]. rewrite (Hcb Hin).
    unfold update_circuit_breaker. cbv zeta.
    cbn [status set_temperature]. by rewrite Hfault.
  - rewrite lookup_update_asset_statuses_off by done. eauto.
Qed.

Lemma Qmax_0_minus h x y :
  0 <= x → 0 <= y → Qmax 0 (Qmax 0 (h - x) - y) == Qmax 0 (h - (x + y)).
Proof.
  intros Hx Hy.
  destruct (Q.max_spec 0 (h - x)) as [[? E]|[? E]];
    destruct (Q.max_spec 0 (Qmax 0 (h - x) - y)) as [[? E']|[? E']];
    destruct (Q.max_spec 0 (h - (x + y))) as [[? E'']|[? E'']];
    rewrite E', E'' || rewrite E', ?E, E''; rewrite ?E in *; lra.
Qed.

(** X9. The fault of a tripped breaker is latched: however many asset
    updates follow, performed or skipped, the breaker stays in fault, and
    each performed update takes 1 off its health score until it reaches
    0. *)
Theorem breaker_fault_latches (envs : list TickEnv) (tw : Twin)
    (id : string) (a : AssetStatus) :
  id ∈ cb_ids → assets tw !! id = Some a → status a = "fault" →
  0 <= health_score a →
  ∃ a',
    assets (update_many envs tw) !! id = Some a'
    ∧ status a' = "fault"
    ∧ health_score a'
      == Qmax 0 (health_score a
                 - inject_Z (Z.of_nat (length (List.filter dss_engine envs)))).
Proof.
  intros Hin. revert tw a.
  induction envs as [|env envs IH]; intros tw a Hid Hfault Hpos.
  - exists a. split; [done|]. split; [done|].
    cbn [List.filter length Z.of_nat]. change (inject_Z 0) with 0.
    destruct (Q.max_spec 0 (health_score a - 0)) as [[? E]|[? E]];
      rewrite E; lra.
  - destruct (update_asset_statuses_breaker env tw id a Hin Hid Hfault)
      as (a1 & Hid1 & Hfault1 & Hh1).
    assert (0 <= health_score a1) as Hpos1.
    { rewrite Hh1. destruct (dss_engine env); [apply Q.le_max_l|done]. }
    destruct (IH _ a1 Hid1 Hfault1 Hpos1) as (a' & Hid' & Hfault' & Hh').
    exists a'. split; [exact Hid'|]. split; [done|].
    rewrite Hh', Hh1. cbn [List.filter].
    destruct (dss_engine env); [|done]. cbn [length].
    rewrite Nat2Z.inj_succ, <- Z.add_1_l, inject_Z_plus.
    rewrite Qmax_0_minus; [reflexivity|done|].
    unfold inject_Z, Qle. cbn. lia.
Qed.

Lemma breaker_fault_latches_witness :
  ∃ a',
    assets (update_many [loaded_env; quiet_env false None; flaky_env]
              (apply_control twin0 "CB_2" "trip")) !! "CB_2" = Some a'
    ∧ status a' = "fault"
    ∧ health_score a' == 86.
Proof.
  edestruct (breaker_fault_latches
               [loaded_env; quiet_env false None; flaky_env]
               (apply_control twin0 "CB_2" "trip") "CB_2")
    as (a' & Hlookup & Hstatus & Hhealth).
  - apply (bool_decide_unpack _). vm_compute. exact I.
  - vm_compute. reflexivity.
  - reflexivity.
  - vm_compute. discriminate.
  - exists a'. split; [exact Hlookup|]. split; [exact Hstatus|].
    rewrite Hhealth. reflexivity.
Defined.

(** ** The grid connection after a tick *)

Lemma simulation_tick_metrics env tw results :
  solve env = Some results →
  metrics (simulation_tick env tw).1
  = metrics (_update_substation_metrics env
               (_update_asset_statuses env (set_opendss_results tw results))).
Proof.
  intros Hsolve. unfold simulation_tick. rewrite Hsolve.
  set (tw1 := _run_ai_analysis _).
  pose proof (broadcast_frame (in_loop_thread env) tw1) as (_ & Hm & _).
  destruct (_broadcast_updates (in_loop_thread env) tw1) as [[tw' sent] raised].
  cbn [fst] in *. by rewrite Hm.
Qed.

Lemma class_of_grid k : class_of k = "GridConnection" → k = "Grid400kV".
Proof. unfold class_of. by repeat case_decide. Qed.

(** X10. After a tick whose solver call returns and whose asset update is
    performed, the flag [grid_connection] is the converged flag of the
    solve result, whatever the registry held before: the tick first
    rewrites the status of Grid400kV, the only grid connection, to healthy
    or warning, so a trip of the grid connection is never seen by the
    metrics of the next tick. *)
Theorem grid_connection_after_tick (env : TickEnv) (tw : Twin)
    (results : OpenDSSResults) :
  registry_shape (assets tw) →
  solve env = Some results →
  dss_engine env = true →
  grid_connection (metrics (simulation_tick env tw).1)
  = get (converged results) false
  ∧ ∃ grid,
      assets (simulation_tick env tw).1 !! "Grid400kV" = Some grid
      ∧ status grid
        = if get (converged results) false then "healthy" else "warning".
Proof.
  intros Hshape Hsolve Hengine.
  set (tw0 := set_opendss_results tw results).
  assert (∀ k a', assets (_update_asset_statuses env tw0) !! k = Some a' →
                  asset_type a' = "GridConnection" →
                  k = "Grid400kV"
                  ∧ status a' = if get (converged results) false
                                then "healthy" else "warning") as Hgrid.
  { intros k a' Hk Htype.
    destruct (update_asset_statuses_registry_shape env tw0 Hshape)
      as [_ Hall].
    destruct (Hall k a' Hk) as [_ Hclass].
    rewrite Htype in Hclass. symmetry in Hclass.
    apply class_of_grid in Hclass as ->. split; [done|].
    rewrite lookup_update_asset_statuses in Hk by done.
    destruct (assets tw0 !! "Grid400kV") as [a|]; [|done].
    injection Hk as <-.
    destruct (tick_asset_cases env (opendss_results tw0) "Grid400kV" a)
      as [-> _]; done. }
  split.
  - rewrite (simulation_tick_metrics env tw results Hsolve). fold tw0.
    cbn [metrics _update_substation_metrics set_metrics grid_connection].
    destruct (update_asset_statuses_frame env tw0) as (_ & _ & _ & -> & _).
    cbn [opendss_results tw0 set_opendss_results].
    destruct (get (converged results) false) eqn:Hconv; [|done].
    cbn [andb]. apply forallb_forall.
    intros a' [Hin Htype]%filter_In.
    apply list_elem_of_In, list_elem_of_fmap in Hin as ([k b] & -> & Hin).
    apply elem_of_map_to_list in Hin. cbn in *.
    apply String.eqb_eq in Htype.
    destruct (Hgrid k b Hin Htype) as [_ ->]. by rewrite ?Hconv.
  - rewrite simulation_tick_assets, Hsolve. fold tw0.
    destruct Hshape as [Hdom _].
    assert (is_Some (assets tw0 !! "Grid400kV")) as [g Hg].
    { apply elem_of_dom. cbn [assets tw0 set_opendss_results].
      rewrite Hdom. apply (bool_decide_unpack _). vm_compute. exact I. }
    rewrite lookup_update_asset_statuses, Hg by done.
    eexists. split; [reflexivity|].
    destruct (tick_asset_cases env (opendss_results tw0) "Grid400kV" g)
      as [-> _]; done.
Qed.

Lemma grid_connection_after_tick_witness :
  grid_connection
    (metrics (simulation_tick loaded_env
                (apply_control twin0 "Grid400kV" "trip")).1)
  = true
  ∧ ∃ grid,
      assets (simulation_tick loaded_env
                (apply_control twin0 "Grid400kV" "trip")).1 !! "Grid400kV"
      = Some grid
      ∧ status grid = "healthy".
Proof.
  apply (grid_connection_after_tick loaded_env
           (apply_control twin0 "Grid400kV" "trip") nominal_results).
  - apply (bool_decide_unpack _). vm_compute. exact I.
  - reflexivity.
  - reflexivity.
Defined.

(** ** Control actions in sequence *)

Lemma trip_lookup tw id a :
  assets tw !! id = Some a →
  assets (apply_control tw id "trip") !! id
  = Some (set_health_score (set_status a "fault")
            (Qmax 0 (health_score a - 10))).
Proof.
  intros Hid. unfold apply_control, control_asset. rewrite Hid. cbn.
  by rewrite lookup_insert_eq.
Qed.

Lemma Qmin_100_plus h x y :
  0 <= x → 0 <= y →
  Qmin 100 (Qmin 100 (h + x) + y) == Qmin 100 (h + (x + y)).
Proof.
  intros Hx Hy.
  destruct (Q.min_spec 100 (h + x)) as [[? E]|[? E]];
    destruct (Q.min_spec 100 (Qmin 100 (h + x) + y)) as [[? E']|[? E']];
    destruct (Q.min_spec 100 (h + (x + y))) as [[? E'']|[? E'']];
    rewrite E', E'' || rewrite E', ?E, E''; rewrite ?E in *; lra.
Qed.

Lemma inject_nat_succ n :
  inject_Z (Z.of_nat (S n)) == inject_Z (Z.of_nat n) + 1.
Proof. by rewrite Nat2Z.inj_succ, <- Z.add_1_r, inject_Z_plus. Qed.

Lemma inject_nat_nonneg n : 0 <= inject_Z (Z.of_nat n).
Proof. unfold inject_Z, Qle. cbn. lia. Qed.

(** X11. Trips and resets accumulate and saturate: [n] trips in a row
    leave the health score at max(0, h - 10 n) and [n] resets at
    min(100, h + 20 n), so from any score in [0, 100] ten trips reach 0 and
    five resets reach 100; after at least one, the status is fault,
    respectively healthy. *)
Theorem repeated_trip_reset (n : nat) (tw : Twin) (id : string)
    (a : AssetStatus) :
  assets tw !! id = Some a → 0 <= health_score a <= 100 →
  (∃ a', assets (repeat_control n id "trip" tw) !! id = Some a'
         ∧ health_score a'
           == Qmax 0 (health_score a - 10 * inject_Z (Z.of_nat n))
         ∧ ((0 < n)%nat → status a' = "fault")
         ∧ ((10 ≤ n)%nat → health_score a' == 0))
  ∧ (∃ a', assets (repeat_control n id "reset" tw) !! id = Some a'
           ∧ health_score a'
             == Qmin 100 (health_score a + 20 * inject_Z (Z.of_nat n))
           ∧ ((0 < n)%nat → status a' = "healthy")
           ∧ ((5 ≤ n)%nat → health_score a' == 100)).
Proof.
  intros Hid Hrange.
  assert (∃ a', assets (repeat_control n id "trip" tw) !! id = Some a'
         ∧ health_score a'
           == Qmax 0 (health_score a - 10 * inject_Z (Z.of_nat n))
         ∧ ((0 < n)%nat → status a' = "fault")) as Htrips.
  { induction n as [|n (a' & Hn & Hh & _)].
    - exists a. split; [done|]. split; [|lia].
      change (inject_Z (Z.of_nat 0)) with 0.
      destruct (Q.max_spec 0 (health_score a - 10 * 0)) as [[? E]|[? E]];
        rewrite E; lra.
    - eexists. split; [exact (trip_lookup _ id a' Hn)|]. split; [|done].
      cbn [health_score set_health_score].
      assert (Qmax 0 (health_score a' - 10)
              == Qmax 0 (Qmax 0 (health_score a
                                 - 10 * inject_Z (Z.of_nat n)) - 10)) as ->.
      { destruct (Q.max_spec 0 (health_score a' - 10)) as [[? E]|[? E]];
          destruct (Q.max_spec 0 (Qmax 0 (health_score a
                      - 10 * inject_Z (Z.of_nat n)) - 10)) as [[? E']|[? E']];
          rewrite E, E'; rewrite <- ?Hh in *; lra. }
      pose proof (inject_nat_nonneg n).
      rewrite Qmax_0_minus by lra. rewrite inject_nat_succ.
      destruct (Q.max_spec 0 (health_score a
                  - (10 * inject_Z (Z.of_nat n) + 10))) as [[? E]|[? E]];
        destruct (Q.max_spec 0 (health_score a
                    - 10 * (inject_Z (Z.of_nat n) + 1))) as [[? E']|[? E']];
        rewrite E, E'; lra. }
  assert (∃ a', assets (repeat_control n id "reset" tw) !! id = Some a'
         ∧ health_score a'
           == Qmin 100 (health_score a + 20 * inject_Z (Z.of_nat n))
         ∧ ((0 < n)%nat → status a' = "healthy")) as Hresets.
  { clear Htrips. induction n as [|n (a' & Hn & Hh & _)].
    - exists a. split; [done|]. split; [|lia].
      change (inject_Z (Z.of_nat 0)) with 0.
      destruct (Q.min_spec 100 (health_score a + 20 * 0)) as [[? E]|[? E]];
        rewrite E; lra.
    - eexists. split; [exact (reset_lookup _ id a' Hn)|]. split; [|done].
      cbn [health_score set_health_score].
      assert (Qmin 100 (health_score a' + 20)
              == Qmin 100 (Qmin 100 (health_score a
                                     + 20 * inject_Z (Z.of_nat n)) + 20))
        as ->.
      { destruct (Q.min_spec 100 (health_score a' + 20)) as [[? E]|[? E]];
          destruct (Q.min_spec 100 (Qmin 100 (health_score a
                      + 20 * inject_Z (Z.of_nat n)) + 20)) as [[? E']|[? E']];
          rewrite E, E'; rewrite <- ?Hh in *; lra. }
      pose proof (inject_nat_nonneg n).
      rewrite Qmin_100_plus by lra. rewrite inject_nat_succ.
      destruct (Q.min_spec 100 (health_score a
                  + (20 * inject_Z (Z.of_nat n) + 20))) as [[? E]|[? E]];
        destruct (Q.min_spec 100 (health_score a
                    + 20 * (inject_Z (Z.of_nat n) + 1))) as [[? E']|[? E']];
        rewrite E, E'; lra. }
  assert (∀ k : nat, (k ≤ n)%nat →
                     inject_Z (Z.of_nat k) <= inject_Z (Z.of_nat n)) as Hmono.
  { intros k Hk. unfold inject_Z, Qle. cbn. lia. }
  destruct Htrips as (t & Ht & Hth & Hts).
  destruct Hresets as (r & Hr & Hrh & Hrs).
  split.
  - exists t. repeat split; try done. intros Hn.
    rewrite Hth. apply Q.max_l. specialize (Hmono 10%nat Hn).
    change (inject_Z (Z.of_nat 10)) with 10 in Hmono. lra.
  - exists r. repeat split; try done. intros Hn.
    rewrite Hrh. apply Q.min_l. specialize (Hmono 5%nat Hn).
    change (inject_Z (Z.of_nat 5)) with 5 in Hmono. lra.
Qed.

Lemma repeated_trip_reset_witness :
  (∃ a', assets (repeat_control 10 "IndustrialLoad1" "trip" twin0)
           !! "IndustrialLoad1" = Some a'
         ∧ health_score a' == 0 ∧ status a' = "fault")
  ∧ (∃ a', assets (repeat_control 5 "IndustrialLoad1" "reset" twin0)
             !! "IndustrialLoad1" = Some a'
           ∧ health_score a' == 100 ∧ status a' = "healthy").
Proof.
  edestruct (repeated_trip_reset 10 twin0 "IndustrialLoad1")
    as [(t & Ht & _ & Hts & Hth) _];
    [vm_compute; reflexivity|vm_compute; split; discriminate|].
  edestruct (repeated_trip_reset 5 twin0 "IndustrialLoad1")
    as [_ (r & Hr & _ & Hrs & Hrh)];
    [vm_compute; reflexivity|vm_compute; split; discriminate|].
  split.
  - exists t. split; [exact Ht|]. split; [apply Hth|apply Hts]; lia.
  - exists r. split; [exact Hr|]. split; [apply Hrh|apply Hrs]; lia.
Defined.

(** ** What a control action leaves alone *)

Ltac control_cases :=
  repeat match goal with
  | |- context [String.eqb ?x ?s] =>
    destruct (String.eqb_spec x s) as [?|?]; subst; cbn
  end.

(** X12. A control action, accepted or not, changes nothing but the
    status and the health score of the asset it names: every other asset,
    and the voltage, current, power, temperature, timestamp, id and class
    of the asset itself, stay as they were, and so do the metrics, the
    ledger, the client list and the running flag.  Only trip and reset
    change the health score. *)
Theorem control_asset_frame (tw : Twin) (id action : string) :
  (∀ k, k ≠ id → assets (apply_control tw id action) !! k = assets tw !! k)
  ∧ (∀ a, assets tw !! id = Some a →
       ∃ a', assets (apply_control tw id action) !! id = Some a'
             ∧ voltage a' = voltage a ∧ current a' = current a
             ∧ power a' = power a ∧ temperature a' = temperature a
             ∧ timestamp a' = timestamp a
             ∧ asset_id a' = asset_id a ∧ asset_type a' = asset_type a
             ∧ (action ≠ "trip" → action ≠ "reset" →
                health_score a' = health_score a))
  ∧ metrics (apply_control tw id action) = metrics tw
  ∧ faults (apply_control tw id action) = faults tw
  ∧ websocket_clients (apply_control tw id action) = websocket_clients tw
  ∧ opendss_results (apply_control tw id action) = opendss_results tw
  ∧ is_running (apply_control tw id action) = is_running tw.
Proof.
  split; [|split; [|apply apply_control_frame]].
  - intros k Hne. unfold apply_control, control_asset.
    destruct (assets tw !! id) as [a|]; [|done].
    repeat match goal with
    | |- context [if ?c then _ else _] => destruct c
    end; cbn [assets set_assets]; by rewrite ?lookup_insert_ne.
  - intros a Hid. unfold apply_control, control_asset. rewrite Hid.
    destruct (String.eqb_spec (asset_type a) "CircuitBreaker") as [Hcb|Hcb];
      control_cases; rewrite ?lookup_insert_eq;
      eexists; (split; [first [eassumption|reflexivity]|]);
      repeat split; done.
Qed.

(** ** Reading back *)

(** X13. [get_asset_status] raises exactly for an id the registry does not
    hold, and then [control_asset] raises the same error for every action.
    After an accepted control action it returns the asset with the status
    the action sets: open, closed, fault or healthy. *)
Theorem get_asset_status_after_control (tw : Twin) (id action : string) :
  ((∃ e, get_asset_status tw id = inl e) ↔ assets tw !! id = None)
  ∧ (∀ e, get_asset_status tw id = inl e → control_asset tw id action = inl e)
  ∧ (∀ tw' result,
       control_asset tw id action = inr (tw', result) →
       ∃ a', get_asset_status tw' id = inr a'
             ∧ get_all_assets tw' !! id = Some a'
             ∧ (action = "open" → status a' = "open")
             ∧ (action = "close" → status a' = "closed")
             ∧ (action = "trip" → status a' = "fault")
             ∧ (action = "reset" → status a' = "healthy")).
Proof.
  unfold get_asset_status, get_all_assets, control_asset.
  destruct (assets tw !! id) as [a|] eqn:Hid.
  - split; [split; [intros [e ?]; done|done]|]. split; [done|].
    intros tw' result.
    destruct (String.eqb_spec (asset_type a) "CircuitBreaker") as [Hcb|Hcb];
      control_cases; intros [= <- <-]; cbn [assets set_assets];
      rewrite ?lookup_fmap, ?lookup_insert_eq;
      (eexists; split; [reflexivity|]; split; [reflexivity|]);
      repeat split; intros; done.
  - split; [split; [done|eauto]|]. split; [by intros e [= <-]|done].
Qed.

Lemma get_asset_status_after_control_witness :
  ∃ a', get_asset_status (apply_control twin0 "CB_3" "close") "CB_3" = inr a'
        ∧ status a' = "closed".
Proof.
  edestruct (proj2 (proj2 (get_asset_status_after_control twin0 "CB_3"
                             "close")))
    as (a' & Hget & _ & _ & Hclosed & _).
  - vm_compute. reflexivity.
  - exists a'. split; [exact Hget|]. by apply Hclosed.
Defined.

(** ** HTTP status codes *)

(** X14. GET /api/assets/{id} answers 404 exactly when the registry does
    not hold the id, with the message of the error as detail.  POST
    /api/control answers 400 exactly when [control_asset] raises, leaves
    the twin untouched in that case, and never answers another error
    code; for an unknown id its detail is the one of the 404.  POST
    /api/faults/analyze always succeeds, and the record it returns is the
    last one of GET /api/faults afterwards. *)
Theorem api_status_codes (tw : Twin) (request : API.AssetControlRequest) :
  let id := API.request_asset_id request in
  (∀ id', match API.get_asset tw id' with
          | API.Ok asset => assets tw !! id' = Some asset
          | API.HTTPException code detail =>
            code = 404%nat ∧ assets tw !! id' = None
            ∧ detail = "Asset " ++ id' ++ " not found"
          end)
  ∧ match API.control_asset tw request with
    | (tw', API.Ok (outcome, _)) =>
      outcome = "success"
      ∧ ∃ a, assets tw !! id = Some a
             ∧ accepts (asset_type a) (API.request_action request)
    | (tw', API.HTTPException code detail) =>
      code = 400%nat ∧ tw' = tw
      ∧ (assets tw !! id = None
         ∧ API.get_asset tw id = API.HTTPException 404 detail
         ∨ ∃ a, assets tw !! id = Some a
                ∧ ¬ accepts (asset_type a) (API.request_action request))
    end
  ∧ (∀ draws type location,
       ∃ record,
         (API.analyze_fault tw draws type location).2 = API.Ok record
         ∧ API.get_fault_history
             (API.analyze_fault tw draws type location).1
           = API.Ok (get_fault_history tw ++ [record])%list).
Proof.
  cbn zeta. split; [|split].
  - intros id'. unfold API.get_asset, get_asset_status.
    by destruct (assets tw !! id').
  - unfold API.control_asset, API.get_asset, get_asset_status, control_asset,
      accepts.
    destruct (assets tw !! API.request_asset_id request) as [a|] eqn:Hid;
      [|cbn; split; [done|split; [done|by left]]].
    destruct (String.eqb_spec (asset_type a) "CircuitBreaker") as [Hcb|Hcb];
      control_cases.
    all: try (split; [done|]; exists a; split; [done|]; rewrite ?Hcb; tauto).
    all: split; [done|]; split; [done|]; right; exists a; split; [done|];
      intros [[[?|?] ?]|[?|?]]; done.
  - intros draws type location. eexists. split; [reflexivity|].
    unfold API.get_fault_history, get_fault_history. cbn.
    by rewrite fmap_app.
Qed.

(** ** WebSocket clients *)

Lemma list_remove_None c (l : list client) :
  list_remove c l = None ↔ c ∉ l.
Proof.
  induction l as [|c' l IH]; cbn.
  - split; [intros _; apply not_elem_of_nil|done].
  - rewrite not_elem_of_cons. destruct (Nat.eqb_spec c c') as [->|Hne].
    + split; [done|]. by intros [? _].
    + rewrite fmap_None, IH. tauto.
Qed.

Lemma list_remove_Some c (l l' : list client) :
  list_remove c l = Some l' → length l = S (length l') ∧ l' ⊆ l.
Proof.
  revert l'. induction l as [|c' l IH]; intros l'; cbn; [done|].
  destruct (Nat.eqb_spec c c') as [->|Hne].
  - intros [= ->]. split; [done|]. intros x Hx. by right.
  - destruct (list_remove c l) as [k|]; [|done]. intros [= <-].
    destruct (IH k eq_refl) as [Hlen Hsub]. cbn. split; [by rewrite Hlen|].
    intros x [->|Hx]%elem_of_cons; [left|right; by apply Hsub].
Qed.

Lemma broadcast_updates_spec env tw :
  _broadcast_updates env tw
  = (set_websocket_clients tw
       (List.filter (fun c => negb (send_raises env c))
                    (websocket_clients tw)),
     (fun c => (c, mkUpdate "update" (assets tw) (metrics tw)
                     (broadcast_time env)))
       <$> List.filter (fun c => negb (send_raises env c))
                       (websocket_clients tw),
     None).
Proof.
  unfold _broadcast_updates.
  destruct (websocket_clients tw) as [|c clients] eqn:Hcs.
  { cbn. destruct tw. cbn in *. by rewrite Hcs. }
  rewrite send_to_all_spec.
  pose proof (remove_each_failed (send_raises env) [] (c :: clients)
                (Forall_nil_2 _)) as Hrem.
  rewrite app_nil_l in Hrem. by rewrite Hrem.
Qed.

(** X15. Connecting a new client and disconnecting it again restores the
    client list.  Disconnecting a client takes exactly one entry off the
    list; for a client that is not in the list the handler raises
    ValueError, and that is what happens to a client that a broadcast has
    already dropped because its send raised. *)
Theorem websocket_connect_disconnect (tw : Twin) (c : client) :
  (c ∉ websocket_clients tw →
   websocket_disconnect (websocket_connect tw c) c
   = inr (set_websocket_clients tw (websocket_clients tw)))
  ∧ (c ∉ websocket_clients tw ↔ ∃ e, websocket_disconnect tw c = inl e)
  ∧ (∀ tw', websocket_disconnect tw c = inr tw' →
       length (websocket_clients tw) = S (length (websocket_clients tw'))
       ∧ websocket_clients tw' ⊆ websocket_clients tw
       ∧ assets tw' = assets tw ∧ metrics tw' = metrics tw
       ∧ faults tw' = faults tw)
  ∧ (∀ env, send_raises env c = true →
       ∃ e, websocket_disconnect (_broadcast_updates env tw).1.1 c = inl e).
Proof.
  assert (∀ tw, c ∉ websocket_clients tw →
                ∃ e, websocket_disconnect tw c = inl e) as Hraise.
  { intros tw0 Hout. unfold websocket_disconnect.
    apply list_remove_None in Hout. rewrite Hout. eauto. }
  split; [|split; [|split]].
  - intros Hout. unfold websocket_disconnect, websocket_connect.
    cbn [websocket_clients set_websocket_clients].
    rewrite list_remove_middle; [by rewrite app_nil_r|].
    apply Forall_forall. intros c' Hin ->. done.
  - split; [apply Hraise|]. intros [e He]. unfold websocket_disconnect in He.
    destruct (list_remove c (websocket_clients tw)) eqn:Hrem; [done|].
    by apply list_remove_None.
  - intros tw'. unfold websocket_disconnect.
    destruct (list_remove c (websocket_clients tw)) as [l|] eqn:Hrem; [|done].
    intros [= <-]. by destruct (list_remove_Some c _ l Hrem).
  - intros env Hc. apply Hraise. rewrite broadcast_updates_spec.
    cbn [fst websocket_clients set_websocket_clients].
    rewrite list_elem_of_In, filter_In. intros [_ Hok]. by rewrite Hc in Hok.
Qed.

Lemma websocket_connect_disconnect_witness :
  websocket_disconnect (websocket_connect running_twin 7%nat) 7%nat
  = inr (set_websocket_clients running_twin [1; 2; 3]%nat)
  ∧ ∃ e, websocket_disconnect
           (_broadcast_updates flaky_env running_twin).1.1 2%nat = inl e.
Proof.
  split.
  - apply (proj1 (websocket_connect_disconnect running_twin 7%nat)).
    apply (bool_decide_unpack _). vm_compute. exact I.
  - apply (proj2 (proj2 (proj2
             (websocket_connect_disconnect running_twin 2%nat))) flaky_env).
    reflexivity.
Defined.

(** ** Broadcast accounting *)

Lemma filter_negb_length {A} (f : A → bool) (l : list A) :
  (length (List.filter (fun x => negb (f x)) l) + length (List.filter f l)
   = length l)%nat.
Proof. induction l as [|x l IH]; [done|]. cbn. destruct (f x); cbn; lia. Qed.

Lemma filter_sublist {A} (f : A → bool) (l : list A) :
  sublist (List.filter f l) l.
Proof.
  induction l as [|x l IH]; [constructor|]. cbn.
  destruct (f x); by constructor.
Qed.

Lemma filter_filter_same {A} (f : A → bool) (l : list A) :
  List.filter f (List.filter f l) = List.filter f l.
Proof.
  induction l as [|x l IH]; [done|]. cbn.
  destruct (f x) eqn:Hx; [cbn; by rewrite Hx, IH|done].
Qed.

Lemma filter_all {A} (f : A → bool) (l : list A) :
  (∀ x, x ∈ l → f x = true) → List.filter f l = l.
Proof.
  induction l as [|x l IH]; [done|]. intros Hall. cbn.
  rewrite (Hall x) by left. rewrite IH; [done|].
  intros y Hy. apply Hall. by right.
Qed.

(** X16. Every client of a broadcast is either sent the message or
    dropped, never both and never neither; the clients that remain keep
    their order; a second broadcast with the same outcome of the sends
    drops nobody more and reaches the same clients; and when no send
    raises the twin is left exactly as it was. *)
Theorem broadcast_accounting (env : TickEnv) (tw : Twin) :
  let tw' := (_broadcast_updates env tw).1.1 in
  let sent := (_broadcast_updates env tw).1.2 in
  (length sent + length (List.filter (send_raises env) (websocket_clients tw))
   = length (websocket_clients tw))%nat
  ∧ length sent = length (websocket_clients tw')
  ∧ sublist (websocket_clients tw') (websocket_clients tw)
  ∧ websocket_clients (_broadcast_updates env tw').1.1 = websocket_clients tw'
  ∧ (_broadcast_updates env tw').1.2.*1 = sent.*1
  ∧ ((∀ c, c ∈ websocket_clients tw → send_raises env c = false) →
     tw' = tw ∧ sent.*1 = websocket_clients tw)
  ∧ (websocket_clients tw = [] → tw' = tw ∧ sent = []).
Proof.
  cbn zeta. rewrite !broadcast_updates_spec.
  cbn [fst snd websocket_clients set_websocket_clients assets metrics].
  set (ok := fun c => negb (send_raises env c)).
  assert (∀ (data : UpdateData) (l : list client),
            ((fun c => (c, data)) <$> l).*1 = l) as Hfst.
  { intros data l. rewrite <- list_fmap_compose. apply list_fmap_id. }
  split; [rewrite length_fmap; apply filter_negb_length|].
  split; [by rewrite length_fmap|].
  split; [apply filter_sublist|].
  split; [apply filter_filter_same|].
  split; [by rewrite !Hfst, filter_filter_same|].
  split.
  - intros Hall. rewrite Hfst.
    rewrite (filter_all ok); [by destruct tw|].
    intros c Hc. unfold ok. by rewrite (Hall c Hc).
  - intros Hnil. rewrite Hnil. cbn. destruct tw. cbn in *. by subst.
Qed.

Lemma broadcast_accounting_witness :
  (_broadcast_updates (quiet_env true None) running_twin).1.1 = running_twin
  ∧ (_broadcast_updates (quiet_env true None) running_twin).1.2.*1
    = [1; 2; 3]%nat.
Proof.
  refine (proj1 (proj2 (proj2 (proj2 (proj2 (proj2
            (broadcast_accounting (quiet_env true None) running_twin))))))
            _).
  reflexivity.
Defined.

(** ** What the loop sends *)

Lemma filter_nobody (l : list client) :
  List.filter (fun _ => negb true) l = [].
Proof. by induction l. Qed.

Lemma simulation_tick_spec env tw results :
  solve env = Some results →
  simulation_tick env tw
  = (set_websocket_clients
       (_update_substation_metrics env
          (_update_asset_statuses env (set_opendss_results tw results))) [],
     []).
Proof.
  intros Hsolve. unfold simulation_tick. rewrite Hsolve.
  unfold _run_ai_analysis. rewrite broadcast_updates_spec.
  cbn [send_raises in_loop_thread].
  by rewrite (filter_nobody (websocket_clients _)).
Qed.

Lemma simulation_tick_sends_nothing env tw : (simulation_tick env tw).2 = [].
Proof.
  destruct (solve env) as [results|] eqn:Hsolve.
  - by rewrite (simulation_tick_spec env tw results Hsolve).
  - unfold simulation_tick. by rewrite Hsolve.
Qed.

(** X17. The loop never hands an update to any client.  Every send
    attempt of a tick raises in the loop thread, so a tick sends nothing,
    and a tick whose solver call returns empties the client list: a
    client that connected just before it is dropped without having
    received anything, and its disconnect handler then raises
    ValueError.  A tick whose solver call raises leaves the client list as
    it was. *)
Theorem loop_reaches_no_client (env : TickEnv) (tw : Twin) :
  (simulation_tick env tw).2 = []
  ∧ (∀ schedule,
       Forall (fun sent => sent = []) (_simulation_loop schedule tw).2)
  ∧ (∀ results, solve env = Some results →
       websocket_clients (simulation_tick env tw).1 = []
       ∧ ∀ c,
           websocket_clients
             (simulation_tick env (websocket_connect tw c)).1 = []
           ∧ ∃ e,
               websocket_disconnect
                 (simulation_tick env (websocket_connect tw c)).1 c = inl e)
  ∧ (solve env = None →
     websocket_clients (simulation_tick env tw).1 = websocket_clients tw).
Proof.
  split; [apply simulation_tick_sends_nothing|]. split; [|split].
  - intros schedule. revert tw.
    induction schedule as [|[env' stop] rest IH]; intros tw; [constructor|].
    cbn [_simulation_loop]. destruct (is_running tw); [|constructor].
    pose proof (simulation_tick_sends_nothing env' tw) as Hsent.
    destruct (simulation_tick env' tw) as [tw1 sent]. cbn [snd] in Hsent.
    match goal with
    | |- context [_simulation_loop rest ?t] =>
      pose proof (IH t) as Hrest; destruct (_simulation_loop rest t)
    end.
    by constructor.
  - intros results Hsolve.
    split; [by rewrite (simulation_tick_spec env tw results Hsolve)|].
    intros c. rewrite (simulation_tick_spec env _ results Hsolve).
    split; [done|]. by eexists.
  - intros Hsolve. unfold simulation_tick. by rewrite Hsolve.
Qed.

Lemma loop_reaches_no_client_witness :
  websocket_clients (simulation_tick flaky_env running_twin).1 = []
  ∧ ∀ c,
      websocket_clients
        (simulation_tick flaky_env (websocket_connect running_twin c)).1 = []
      ∧ ∃ e,
          websocket_disconnect
            (simulation_tick flaky_env (websocket_connect running_twin c)).1 c
          = inl e.
Proof.
  apply (proj1 (proj2 (proj2 (loop_reaches_no_client flaky_env running_twin)))
           nominal_results).
  reflexivity.
Defined.

(** ** Industrial loads *)

(** X18. A tick never leaves an industrial load in fault: its status is
    warning exactly when the power it stored exceeds 18000 kW and healthy
    otherwise.  When the engine raises for the load, the tick stores the
    nominal power (15000 kW for IndustrialLoad1, 12000 kW for
    IndustrialLoad2) at 33 kV, and the load is healthy. *)
Theorem industrial_load_status (env : TickEnv) (tw : Twin) (id : string)
    (a : AssetStatus) :
  dss_engine env = true → id ∈ load_ids → assets tw !! id = Some a →
  ∃ a',
    assets (_update_asset_statuses env tw) !! id = Some a'
    ∧ (status a' = "warning" ↔ 18000 < power a')
    ∧ (status a' = "healthy" ↔ power a' <= 18000)
    ∧ status a' ≠ "fault"
    ∧ temperature a' = 35 + power a' / 20000 * 15 + normal env id
    ∧ (load_powers_voltages env ("Load." ++ id) = None →
       status a' = "healthy" ∧ voltage a' = 33
       ∧ power a' = (if decide (id = "IndustrialLoad1") then 15000
                     else 12000)).
Proof.
  intros Hengine Hin Hid. eexists. split.
  { rewrite lookup_update_asset_statuses, Hid by done. reflexivity. }
  destruct (tick_asset_cases env (opendss_results tw) id a)
    as (_ & _ & _ & _ & Hload & _).
  rewrite (Hload Hin). unfold update_industrial_load.
  set (nominal := if contains "1" id then 15000 else 12000).
  assert (nominal = if decide (id = "IndustrialLoad1") then 15000
                    else 12000) as Hnominal
    by (unfold load_ids in Hin; split_elem Hin; reflexivity).
  assert (nominal <= 18000) as Hle
    by (rewrite Hnominal; destruct (decide _); discriminate).
  rewrite <- Hnominal. clearbody nominal.
  destruct (load_powers_voltages env ("Load." ++ id))
    as [[powers voltages]|];
    [destruct (2 <=? length powers)%nat, (1 <=? length voltages)%nat|];
    cbv zeta;
    cbn [power voltage set_power set_current set_voltage set_temperature];
    match goal with
    | |- context [Qgtb ?p 18000] =>
      destruct (Qgtb p 18000) eqn:Hp;
        [apply Qgtb_true in Hp|apply Qgtb_false in Hp]
    end;
    cbn [status power voltage temperature set_status set_health_score
         set_timestamp set_temperature set_power set_current set_voltage].
  all: (split; [split; intros ?; first [done|lra|exfalso; lra]|]).
  all: (split; [split; intros ?; first [done|lra|exfalso; lra]|]).
  all: (split; [done|]).
  all: (split; [done|]).
  all: intros ?; first [done|exfalso; lra].
Qed.

Lemma industrial_load_status_witness :
  ∃ a',
    assets (_update_asset_statuses loaded_env
              (apply_control twin0 "IndustrialLoad2" "trip"))
      !! "IndustrialLoad2" = Some a'
    ∧ status a' = "healthy" ∧ voltage a' = 33 ∧ power a' = 12000.
Proof.
  edestruct (industrial_load_status loaded_env
               (apply_control twin0 "IndustrialLoad2" "trip")
               "IndustrialLoad2")
    as (a' & Hlookup & _ & _ & _ & _ & Hfallback).
  - reflexivity.
  - apply (bool_decide_unpack _). vm_compute. exact I.
  - vm_compute. reflexivity.
  - exists a'. split; [exact Hlookup|]. apply Hfallback. reflexivity.
Defined.

(** ** Powers and currents are never negative *)

Lemma tick_asset_flows env results k a :
  0 <= power a ∧ 0 <= current a →
  0 <= power (tick_asset env results k a)
  ∧ 0 <= current (tick_asset env results k a).
Proof.
  intros Ha. unfold tick_asset. repeat case_decide; [| | | | |done].
  - unfold update_grid. cbv zeta.
    cbn [power current voltage set_voltage set_power set_current
         set_temperature set_status set_timestamp].
    split; [apply Qabs_milli_nonneg|].
    destruct (Qgtb _ 0) eqn:Hv; [apply Qgtb_true in Hv|done].
    apply Qdiv_nonneg; [|lra].
    pose proof (Qabs_milli_nonneg (get (total_power_kw results) 0)). lra.
  - apply update_power_transformer_power.
  - apply update_distribution_transformer_power.
  - unfold update_circuit_breaker. cbv zeta.
    by destruct (status _ =? "fault").
  - unfold update_industrial_load.
    set (nominal := if contains "1" k then 15000 else 12000).
    assert (0 <= nominal ∧ 0 <= nominal / (33 * 1.732)) as [Hn Hc]
      by (subst nominal; destruct (contains "1" k); split; discriminate).
    clearbody nominal.
    destruct (load_powers_voltages env ("Load." ++ k)) as [[powers voltages]|];
      [destruct (2 <=? length powers)%nat, (1 <=? length voltages)%nat|];
      cbv zeta;
      cbn [power set_power set_current set_voltage set_temperature];
      destruct (Qgtb _ 18000);
      cbn [power current set_status set_health_score set_timestamp
           set_temperature set_power set_current set_voltage];
      (split; [first [apply Qabs_nonneg|done]|]); try done.
    all: destruct (negb _); [|done].
    all: apply Qdiv_nonneg; [apply Qabs_nonneg|reflexivity].
Qed.

Lemma setup_flows_nonneg results now :
  flows_nonneg (_setup_assets results now).
Proof.
  unfold flows_nonneg, _setup_assets. cbv zeta. rewrite cb_ids_eq.
  unfold power_transformer_ids, distribution_transformer_ids.
  cbn [foldl].
  set (total := Qabs (get (total_power_kw results) 0)).
  assert (0 <= total) as Htotal by apply Qabs_nonneg.
  assert (∀ p v, 0 <= p →
            0 <= (if Qgtb v 0 then p / (v * 1.732) else 0)) as Hcurrent.
  { intros p v Hp. destruct (Qgtb v 0) eqn:Hv; [|done].
    apply Qgtb_true in Hv. apply Qdiv_nonneg; [done|lra]. }
  assert (0 <= total / 2) by (by apply Qdiv_nonneg).
  assert (0 <= total / 4) by (by apply Qdiv_nonneg).
  assert (0 <= total / 1000) by (by apply Qdiv_nonneg).
  repeat (apply map_Forall_insert_2; [cbn [power current]|]);
    try apply map_Forall_empty.
  all: split; first [done|by apply Hcurrent|discriminate].
Qed.

(** X19. No asset ever reports a negative power or a negative current:
    the registry starts that way, every value a tick stores is an absolute
    value, a nominal value, or a non-negative power over a positive
    voltage (0 when the voltage is not positive), and control actions do
    not touch either field. *)
Theorem flows_nonneg_invariant :
  (∀ results now, flows_nonneg (assets (new_twin results now)))
  ∧ ∀ tw,
      flows_nonneg (assets tw) →
      (∀ env, flows_nonneg (assets (_update_asset_statuses env tw)))
      ∧ (∀ env, flows_nonneg (assets (simulation_tick env tw).1))
      ∧ (∀ schedule, flows_nonneg (assets (_simulation_loop schedule tw).1))
      ∧ (∀ id action, flows_nonneg (assets (apply_control tw id action))).
Proof.
  split; [intros; apply setup_flows_nonneg|].
  assert (∀ env tw, flows_nonneg (assets tw) →
            flows_nonneg (assets (_update_asset_statuses env tw))) as Hupdate.
  { intros env tw Hflows k a' Hk.
    destruct (update_asset_statuses_lookup_inv env tw k a' Hk) as [a Ha].
    destruct (dss_engine env) eqn:Hengine.
    - rewrite lookup_update_asset_statuses, Ha in Hk by done.
      injection Hk as <-. apply tick_asset_flows, (Hflows k a Ha).
    - rewrite lookup_update_asset_statuses_off in Hk by done.
      by apply (Hflows k a'). }
  assert (∀ env tw, flows_nonneg (assets tw) →
            flows_nonneg (assets (simulation_tick env tw).1)) as Htick.
  { intros env tw Hflows. rewrite simulation_tick_assets.
    destruct (solve env) as [results|]; [|done].
    by apply (Hupdate env (set_opendss_results tw results)). }
  intros tw Hflows. split; [|split; [|split]].
  - intros env. by apply Hupdate.
  - intros env. by apply Htick.
  - intros schedule.
    by apply (simulation_loop_preserves (fun tw => flows_nonneg (assets tw))).
  - intros id action k a' Hk.
    destruct (apply_control_lookup_inv tw id action k a' Hk) as [a Ha].
    destruct (control_asset_lookup tw id action k a Ha) as (b & Hb & Heff).
    assert (b = a') as -> by congruence.
    specialize (Hflows k a Ha). by destruct Heff.
Qed.

Lemma flows_nonneg_invariant_witness :
  flows_nonneg (assets (simulation_tick loaded_env twin0).1).
Proof.
  refine (proj1 (proj2 (proj2 flows_nonneg_invariant twin0 _)) loaded_env).
  apply (proj1 flows_nonneg_invariant).
Defined.

(** ** Timestamps *)

Lemma tick_asset_timestamp env results k a :
  k ∈ all_ids → timestamp (tick_asset env results k a) = current_time env.
Proof.
  unfold all_ids. intros Hin. unfold tick_asset.
  repeat case_decide.
  - done.
  - unfold update_power_transformer. cbv zeta.
    by repeat destruct (Qgtb _ _).
  - unfold update_distribution_transformer. cbv zeta.
    by repeat destruct (Qgtb _ _).
  - done.
  - done.
  - exfalso. apply elem_of_cons in Hin as [->|Hin]; [done|].
    repeat (apply elem_of_app in Hin as [Hin|Hin]; [done|]). done.
Qed.

(** X20. A tick whose solver call returns and whose asset update is
    performed stamps every asset of the registry with the one clock
    reading taken at the start of [_update_asset_statuses].  The metrics
    are stamped with a reading of their own, taken by
    [_update_substation_metrics], whenever the solver call returns, also
    when the asset update is skipped.  A tick whose solver call raises
    leaves every timestamp as it was, and a skipped update leaves the asset
    timestamps as they were. *)
Theorem timestamps_after_tick (env : TickEnv) (tw : Twin) (id : string)
    (a : AssetStatus) :
  registry_shape (assets tw) → assets tw !! id = Some a →
  ∃ a',
    assets (simulation_tick env tw).1 !! id = Some a'
    ∧ (∀ results, solve env = Some results →
         metrics_timestamp (metrics (simulation_tick env tw).1)
         = metrics_time env
         ∧ (dss_engine env = true → timestamp a' = current_time env)
         ∧ (dss_engine env = false → timestamp a' = timestamp a))
    ∧ (solve env = None →
       timestamp a' = timestamp a
       ∧ metrics_timestamp (metrics (simulation_tick env tw).1)
         = metrics_timestamp (metrics tw)).
Proof.
  intros [Hdom _] Hid.
  assert (id ∈ all_ids) as Hin.
  { apply (elem_of_list_to_set (C := gset string)). rewrite <- Hdom.
    apply elem_of_dom. eauto. }
  destruct (solve env) as [results|] eqn:Hsolve.
  - rewrite simulation_tick_assets, Hsolve.
    rewrite (simulation_tick_metrics env tw results Hsolve).
    destruct (dss_engine env) eqn:Hengine.
    + rewrite lookup_update_asset_statuses by done.
      cbn [assets set_opendss_results]. rewrite Hid.
      eexists. split; [reflexivity|]. split; [|done].
      intros results' _. split; [done|]. split; [|done].
      intros _. by apply tick_asset_timestamp.
    + rewrite lookup_update_asset_statuses_off by done.
      exists a. split; [done|]. split; [|done].
      intros results' _. split; [done|]. by split.
  - unfold simulation_tick. rewrite Hsolve.
    exists a. split; [done|]. split; [done|]. by intros _.
Qed.

Lemma timestamps_after_tick_witness :
  ∃ a',
    assets (simulation_tick loaded_env twin0).1 !! "CB_4" = Some a'
    ∧ timestamp a' = "t1"
    ∧ metrics_timestamp (metrics (simulation_tick loaded_env twin0).1) = "t2".
Proof.
  edestruct (timestamps_after_tick loaded_env twin0 "CB_4")
    as (a' & Hlookup & Hfresh & _).
  - apply (bool_decide_unpack _). vm_compute. exact I.
  - vm_compute. reflexivity.
  - exists a'. split; [exact Hlookup|].
    destruct (Hfresh nominal_results eq_refl) as (Hmetrics & Hasset & _).
    split; [by apply Hasset|exact Hmetrics].
Defined.
